(** * modal-JWTauth-demo: the two JWT clients, embedded and verified

    The repository ships two browser clients of one JWT API:

    - [src/popup.js], the extension popup.  It keeps the token pair as one
      object (with a derived expiry) under the key [auth_tokens] of
      [chrome.storage.local] and refreshes the access token when the
      stored expiry has passed.
    - the script of [src/index.html], the web page.  It keeps the two
      tokens in two script variables mirrored in [localStorage] and
      refreshes when a request is answered with 401.

    Both are sequences of awaited calls run from single UI events, so an
    [async] function is embedded as a function from the state before to
    an outcome (a value or a thrown exception) and the state after.  The
    HTTP calls go to a remote server, which is a parameter: a function
    from the calls issued so far and the current call to its result.
    Every call is appended to a trace kept in the state. *)

From Stdlib Require Import PrimFloat ZArith NArith String Ascii List Bool Lia.
From stdpp Require Import gmap strings list.
Import ListNotations.
Local Open Scope string_scope.
Local Open Scope list_scope.
Set Warnings "-register-all".

(** ** JavaScript values

    Numbers are IEEE 754 doubles, as in the language.  A string is a
    sequence of code units; the embedding keeps the code units below 256.
    An object is its list of own properties, in insertion order, the first
    binding of a name being the property. *)

Inductive value : Type :=
| VUndef
| VNull
| VBool (b : bool)
| VNum (x : float)
| VStr (s : string)
| VArr (items : list value)
| VObj (fields : list (string * value)).

(** The built-in exceptions the clients can meet, by kind. *)
Inductive builtin_error : Type :=
| TypeError              (* property of null/undefined, call of a non-function *)
| SyntaxError            (* JSON.parse, response.json() *)
| InvalidCharacterError  (* atob *)
| NetworkError.          (* fetch rejected *)

(** What a [throw] or a rejected promise carries. *)
Inductive exn : Type :=
| Error (msg : string)            (* new Error(msg) *)
| Builtin (k : builtin_error)
| LastError (msg : string).       (* chrome.runtime.lastError *)

Inductive outcome (A : Type) : Type :=
| Return (a : A)
| Throw (e : exn).
Arguments Return {A} a.
Arguments Throw {A} e.

(** The parts of the platform that this development does not define:
    the JSON parser, the numeric and string coercions of the values that
    are not primitive enough to have an obvious one, and the texts of the
    engine's own error messages. *)
Class Platform : Type := {
  JSON_parse : string -> option value;     (* None: throws SyntaxError *)
  ToNumber_other : value -> float;         (* ToNumber of a string, array, object *)
  ToString_other : value -> string;        (* ToString of a number, array, object *)
  builtin_message : builtin_error -> string
}.

Definition lookup_field (k : string) (fs : list (string * value)) : value :=
  match find (fun p => String.eqb (fst p) k) fs with
  | Some p => snd p
  | None => VUndef
  end.

(** [v.k] for the property names the clients read ([status], [message],
    [access_token], [refresh_token], [exp], [access_token_expiry]): none of
    them is a property of a primitive's or an array's prototype. *)
Definition member (v : value) (k : string) : outcome value :=
  match v with
  | VUndef | VNull => Throw (Builtin TypeError)
  | VObj fs => Return (lookup_field k fs)
  | _ => Return VUndef
  end.

Definition ToBoolean (v : value) : bool :=
  match v with
  | VUndef | VNull => false
  | VBool b => b
  | VNum x => negb (PrimFloat.is_nan x || PrimFloat.is_zero x)
  | VStr s => negb (String.eqb s "")
  | VArr _ | VObj _ => true
  end.

Section Coercions.
Context {P : Platform}.

Definition ToNumber (v : value) : float :=
  match v with
  | VUndef => PrimFloat.nan
  | VNull => PrimFloat.zero
  | VBool b => if b then PrimFloat.one else PrimFloat.zero
  | VNum x => x
  | _ => ToNumber_other v
  end.

Definition ToString (v : value) : string :=
  match v with
  | VUndef => "undefined"
  | VNull => "null"
  | VBool b => if b then "true" else "false"
  | VStr s => s
  | _ => ToString_other v
  end.

Definition message (e : exn) : string :=
  match e with
  | Error m => m
  | LastError m => m
  | Builtin k => builtin_message k
  end.
End Coercions.

(** [v === 'lit'] *)
Definition strict_eq_str (v : value) (lit : string) : bool :=
  match v with
  | VStr s => String.eqb s lit
  | _ => false
  end.

(** ** Strings *)

(** [s.split(sep)] for a one-character separator. *)
Fixpoint split (sep : ascii) (s : string) : list string :=
  match s with
  | EmptyString => [EmptyString]
  | String c rest =>
      if Ascii.eqb c sep then EmptyString :: split sep rest
      else match split sep rest with
           | piece :: pieces => String c piece :: pieces
           | [] => [String c EmptyString]
           end
  end.

(** White space and line terminators of [String.prototype.trim] below
    code unit 256: TAB, LF, VT, FF, CR, SP, NBSP. *)
Definition is_js_space (c : ascii) : bool :=
  let n := N_of_ascii c in
  ((9 <=? n) && (n <=? 13) || (n =? 32) || (n =? 160))%N.

Fixpoint trim_start (s : string) : string :=
  match s with
  | String c rest => if is_js_space c then trim_start rest else s
  | EmptyString => EmptyString
  end.

Fixpoint trim_end (s : string) : string :=
  match s with
  | EmptyString => EmptyString
  | String c rest =>
      match trim_end rest with
      | EmptyString => if is_js_space c then EmptyString else String c EmptyString
      | kept => String c kept
      end
  end.

Definition trim (s : string) : string := trim_end (trim_start s).

(** The double quote, for writing JSON texts. *)
Definition dq : string := String "034"%char EmptyString.

(** ** [atob]: the forgiving-base64 decoder of the HTML standard *)

Definition is_ascii_whitespace (c : ascii) : bool :=
  let n := N_of_ascii c in
  ((n =? 9) || (n =? 10) || (n =? 12) || (n =? 13) || (n =? 32))%N.

Definition sextet (c : ascii) : option N :=
  let n := N_of_ascii c in
  if ((65 <=? n) && (n <=? 90))%N then Some (n - 65)%N            (* A-Z *)
  else if ((97 <=? n) && (n <=? 122))%N then Some (n - 71)%N      (* a-z *)
  else if ((48 <=? n) && (n <=? 57))%N then Some (n + 4)%N        (* 0-9 *)
  else if (n =? 43)%N then Some 62%N                              (* + *)
  else if (n =? 47)%N then Some 63%N                              (* / *)
  else None.

Fixpoint sextets (cs : list ascii) : option (list N) :=
  match cs with
  | [] => Some []
  | c :: rest =>
      match sextet c, sextets rest with
      | Some n, Some ns => Some (n :: ns)
      | _, _ => None
      end
  end.

Definition octet (n : N) : ascii := ascii_of_N (n mod 256).

Fixpoint octets (ns : list N) : string :=
  match ns with
  | a :: b :: c :: d :: rest =>
      let w := (a * 262144 + b * 4096 + c * 64 + d)%N in
      String (octet (w / 65536)) (String (octet (w / 256)) (String (octet w) (octets rest)))
  | [a; b; c] =>
      let w := ((a * 4096 + b * 64 + c) / 4)%N in
      String (octet (w / 256)) (String (octet w) EmptyString)
  | [a; b] =>
      let w := ((a * 64 + b) / 16)%N in
      String (octet w) EmptyString
  | _ => EmptyString
  end.

Definition strip_padding (cs : list ascii) : list ascii :=
  if (length cs mod 4 =? 0)%nat then
    match rev cs with
    | "="%char :: "="%char :: front => rev front
    | "="%char :: front => rev front
    | _ => cs
    end
  else cs.

(** [atob(s)]; [None] when it throws [InvalidCharacterError]. *)
Definition atob (s : string) : option string :=
  let cs := strip_padding (filter (fun c => negb (is_ascii_whitespace c)) (list_ascii_of_string s)) in
  if (length cs mod 4 =? 1)%nat then None
  else option_map octets (sextets cs).

(** [obj[k] = v] on an object kept as a property list. *)
Fixpoint assign {A} (k : string) (v : A) (fs : list (string * A)) : list (string * A) :=
  match fs with
  | [] => [(k, v)]
  | (k', v') :: rest =>
      if String.eqb k' k then (k, v) :: rest else (k', v') :: assign k v rest
  end.

(** [obj[k]] on a property list of strings: the header of that name. *)
Definition lookup_header (k : string) (hs : list (string * string)) : option string :=
  match find (fun kv => String.eqb (fst kv) k) hs with
  | Some kv => Some (snd kv)
  | None => None
  end.

(** ** HTTP *)

Record request : Type := mkRequest {
  url : string;
  method : string;
  headers : list (string * string);
  body : option value      (* the value handed to JSON.stringify *)
}.

Record response : Type := mkResponse {
  status : Z;                      (* response.status *)
  json : option value              (* response.json(); None: the body is not JSON *)
}.

(** [response.ok] *)
Definition ok (r : response) : bool := (200 <=? status r)%Z && (status r <=? 299)%Z.

Inductive fetch_result : Type :=
| Failed                      (* the promise of fetch rejects *)
| Responded (r : response).

(** The remote side: the answer to a call, given the calls before it. *)
Definition network : Type := list request -> request -> fetch_result.

(** ** Sequencing: state, and exceptions that keep the state reached *)

Definition Js (S A : Type) : Type := S -> outcome A * S.

Definition ret {S A} (a : A) : Js S A := fun s => (Return a, s).
Definition throw {S A} (e : exn) : Js S A := fun s => (Throw e, s).
Definition lift {S A} (o : outcome A) : Js S A := fun s => (o, s).

Definition bind {S A B} (m : Js S A) (k : A -> Js S B) : Js S B :=
  fun s => match m s with
           | (Return a, s') => k a s'
           | (Throw e, s') => (Throw e, s')
           end.

(** [try { m } catch (error) { handler error }] *)
Definition try_catch {S A} (m : Js S A) (handler : exn -> Js S A) : Js S A :=
  fun s => match m s with
           | (Return a, s') => (Return a, s')
           | (Throw e, s') => handler e s'
           end.

Definition modify {S} (f : S -> S) : Js S unit := fun s => (Return tt, f s).
Definition gets {S A} (f : S -> A) : Js S A := fun s => (Return (f s), s).

Notation "'let*' x ':=' m 'in' k" := (bind m (fun x => k))
  (at level 10, x name, m at level 100, k at level 200).
Notation "m ';;' k" := (bind m (fun _ => k))
  (at level 100, k at level 200, right associativity).

(** [response.json()] *)
Definition response_json {S} (r : response) : Js S value :=
  lift (match json r with
        | Some v => Return v
        | None => Throw (Builtin SyntaxError)
        end).

(** A [fetch] with method POST, a JSON content type and [JSON.stringify(payload)]
    as body. *)
Definition post_json (target : string) (payload : value) : request :=
  mkRequest target "POST" [("Content-Type", "application/json")] (Some payload).

(** * The extension popup: [src/popup.js] *)

Module Popup.

Definition API : string := "https://ranfysvalle02--jwt-auth-api-fastapi-app.modal.run".

Inductive status_class : Type := StatusError | StatusSuccess.

(** What the popup's functions read and write.  [chrome.storage.local]
    is a map that gives back the value it was given. *)
Record world : Type := mkWorld {
  chrome_local : gmap string value;     (* chrome.storage.local *)
  lastError : option string;            (* chrome.runtime.lastError seen by a storage callback *)
  localStorage : gmap string string;
  username_input : string;              (* #username, its value *)
  password_input : string;              (* #password, its value *)
  status_div : option (value * status_class);  (* #status: textContent and class, once shown *)
  logout_hidden : bool;                 (* #logout carries the class hidden *)
  now : float;                          (* Date.now() *)
  trace : list request                  (* the fetch calls issued, oldest first *)
}.

Definition set_chrome_local (m : gmap string value) (w : world) : world :=
  mkWorld m (lastError w) (localStorage w) (username_input w) (password_input w)
          (status_div w) (logout_hidden w) (now w) (trace w).

Definition set_localStorage (m : gmap string string) (w : world) : world :=
  mkWorld (chrome_local w) (lastError w) m (username_input w) (password_input w)
          (status_div w) (logout_hidden w) (now w) (trace w).

Definition set_password_input (s : string) (w : world) : world :=
  mkWorld (chrome_local w) (lastError w) (localStorage w) (username_input w) s
          (status_div w) (logout_hidden w) (now w) (trace w).

Definition set_status_div (d : option (value * status_class)) (w : world) : world :=
  mkWorld (chrome_local w) (lastError w) (localStorage w) (username_input w) (password_input w)
          d (logout_hidden w) (now w) (trace w).

Definition set_logout_hidden (b : bool) (w : world) : world :=
  mkWorld (chrome_local w) (lastError w) (localStorage w) (username_input w) (password_input w)
          (status_div w) b (now w) (trace w).

Definition set_trace (t : list request) (w : world) : world :=
  mkWorld (chrome_local w) (lastError w) (localStorage w) (username_input w) (password_input w)
          (status_div w) (logout_hidden w) (now w) t.

(** The object [storeTokens] writes. *)
Definition token_pair (access refresh expiry : value) : value :=
  VObj [("access_token", access); ("refresh_token", refresh); ("access_token_expiry", expiry)].

(** [response.ok && result.status === 'ok'], the right operand evaluated
    only when the left one holds. *)
Definition ok_and_status_ok (response : response) (result : value) : outcome bool :=
  if ok response then
    match member result "status" with
    | Return s => Return (strict_eq_str s "ok")
    | Throw e => Throw e
    end
  else Return false.

Section Client.
Context {P : Platform} (net : network).

Definition fetch (req : request) : Js world response := fun w =>
  let w' := set_trace (trace w ++ [req]) w in
  match net (trace w) req with
  | Failed => (Throw (Builtin NetworkError), w')
  | Responded r => (Return r, w')
  end.

(** The timer that hides the message after 5000 ms is not part of the
    state: it changes no token, storage entry or call. *)
Definition setStatus (msg : value) (type : string) : Js world unit :=
  modify (set_status_div
            (Some (msg, if String.eqb type "error" then StatusError else StatusSuccess))).

Definition showLogoutButton : Js world unit := modify (set_logout_hidden false).
Definition hideLogoutButton : Js world unit := modify (set_logout_hidden true).

Definition getTokenExpiry (token : value) : outcome float :=
  match token with
  | VStr t =>
      let segment := match split "." t !! 1%nat with
                     | Some s => VStr s
                     | None => VUndef
                     end in
      match atob (ToString segment) with
      | None => Throw (Builtin InvalidCharacterError)
      | Some text =>
          match JSON_parse text with
          | None => Throw (Builtin SyntaxError)
          | Some payload =>
              match member payload "exp" with
              | Return exp => Return (PrimFloat.mul (ToNumber exp) 1000)
              | Throw e => Throw e
              end
          end
      end
  | _ => Throw (Builtin TypeError)   (* token.split is not a function *)
  end.

Definition storeTokens (accessToken refreshToken : value) : Js world unit :=
  let* expiry := lift (getTokenExpiry accessToken) in
  modify (fun w => set_chrome_local
                     (<["auth_tokens" := token_pair accessToken refreshToken (VNum expiry)]>
                        (chrome_local w)) w).

Definition getStoredTokens : Js world value := fun w =>
  match lastError w with
  | Some m => (Throw (LastError m), w)
  | None => (Return (default VUndef (chrome_local w !! "auth_tokens")), w)
  end.

Definition refresh_request (refreshToken : value) : request :=
  post_json (API +:+ "/refresh") (VObj [("refresh_token", refreshToken)]).

Definition refreshAccessToken (refreshToken : value) : Js world value :=
  let* response := fetch (refresh_request refreshToken) in
  let* result := response_json response in
  let* accepted := lift (ok_and_status_ok response result) in
  if accepted then
    let* access := lift (member result "access_token") in
    let* refresh := lift (member result "refresh_token") in
    storeTokens access refresh ;;
    ret (VObj [("access_token", access); ("refresh_token", refresh)])
  else
    let* m := lift (member result "message") in
    throw (Error ("Failed to refresh token: " +:+ ToString m)).

Definition getAccessToken : Js world value :=
  let* tokens := getStoredTokens in
  if negb (ToBoolean tokens) then throw (Error "No tokens found. Please login.")
  else
    let* currentTime := gets now in
    let* expiry := lift (member tokens "access_token_expiry") in
    if PrimFloat.ltb (ToNumber expiry) currentTime then   (* currentTime > expiry *)
      let* refresh := lift (member tokens "refresh_token") in
      let* newTokens := refreshAccessToken refresh in
      lift (member newTokens "access_token")
    else lift (member tokens "access_token").

Definition protected_request (accessToken : value) : request :=
  mkRequest (API +:+ "/protected") "GET"
            [("Authorization", "Bearer " +:+ ToString accessToken)] None.

Definition accessProtected : Js world unit :=
  try_catch
    (let* accessToken := getAccessToken in
     let* response := fetch (protected_request accessToken) in
     let* result := response_json response in
     let* accepted := lift (ok_and_status_ok response result) in
     if accepted then
       let* m := lift (member result "message") in
       setStatus m "success"
     else
       let* m := lift (member result "message") in
       setStatus (VStr ("Failed to access protected resource: " +:+ ToString m)) "error")
    (fun error => setStatus (VStr (message error)) "error").

Definition credentials (username password : string) : value :=
  VObj [("username", VStr username); ("password", VStr password)].

Definition register_request (username password : string) : request :=
  post_json (API +:+ "/register") (credentials username password).

Definition authenticate_request (username password : string) : request :=
  post_json (API +:+ "/authenticate") (credentials username password).

Definition register : Js world unit :=
  let* username := gets (fun w => trim (username_input w)) in
  let* password := gets password_input in
  if negb (ToBoolean (VStr username)) || negb (ToBoolean (VStr password)) then
    setStatus (VStr "Please enter a username and password.") "error"
  else if (String.length password <? 8)%nat then
    setStatus (VStr "Password must be at least 8 characters long.") "error"
  else
    try_catch
      (let* response := fetch (register_request username password) in
       let* result := response_json response in
       let* accepted := lift (ok_and_status_ok response result) in
       if accepted then
         modify (fun w => set_localStorage (<["username" := username]> (localStorage w)) w) ;;
         setStatus (VStr "Registration successful.") "success" ;;
         modify (set_password_input "")
       else
         let* m := lift (member result "message") in
         setStatus (VStr ("Registration failed: " +:+ ToString m)) "error")
      (fun error => setStatus (VStr ("Registration failed: " +:+ message error)) "error").

Definition login : Js world unit :=
  let* username := gets (fun w => trim (username_input w)) in
  let* password := gets password_input in
  if negb (ToBoolean (VStr username)) || negb (ToBoolean (VStr password)) then
    setStatus (VStr "Please enter your username and password.") "error"
  else
    try_catch
      (let* response := fetch (authenticate_request username password) in
       let* result := response_json response in
       let* accepted := lift (ok_and_status_ok response result) in
       if accepted then
         let* access := lift (member result "access_token") in
         let* refresh := lift (member result "refresh_token") in
         storeTokens access refresh ;;
         setStatus (VStr "Authentication successful.") "success" ;;
         showLogoutButton ;;
         modify (set_password_input "")
       else
         let* m := lift (member result "message") in
         setStatus (VStr ("Authentication failed: " +:+ ToString m)) "error")
      (fun error => setStatus (VStr ("Authentication failed: " +:+ message error)) "error").

(** The awaited [chrome.storage.local.remove] is taken to complete: the
    state has nothing that makes it fail, so what is said of [logout] is
    said of a logout whose removal went through. *)
Definition logout : Js world unit :=
  modify (fun w => set_chrome_local (delete "auth_tokens" (chrome_local w)) w) ;;
  modify (fun w => set_localStorage (delete "username" (localStorage w)) w) ;;
  setStatus (VStr "Logged out successfully.") "success" ;;
  hideLogoutButton.

Definition checkLoginStatus : Js world unit :=
  try_catch
    (let* tokens := getStoredTokens in
     if ToBoolean tokens then showLogoutButton else hideLogoutButton)
    (fun _ => hideLogoutButton).

(** The popup's event handlers. *)
Inductive action : Type :=
| Register | Login | Logout | AccessProtected | CheckLoginStatus.

Definition perform (a : action) : Js world unit :=
  match a with
  | Register => register
  | Login => login
  | Logout => logout
  | AccessProtected => accessProtected
  | CheckLoginStatus => checkLoginStatus
  end.

(** One step of a session: a handler runs to its end, or something
    outside the script changes (the user edits the two inputs, time
    passes, the storage API starts or stops failing). *)
Inductive step : world -> world -> Prop :=
| step_perform (a : action) (w : world) :
    step w (snd (perform a w))
| step_outside (w : world) (failing : option string) (username password : string) (time : float) :
    step w (mkWorld (chrome_local w) failing (localStorage w) username password
                    (status_div w) (logout_hidden w) time (trace w)).

(** What an answer to [/authenticate] or [/refresh] grants: the two
    tokens it carries and the expiry derived from the access token, when
    the answer is OK, its body has the status ok and the expiry can be
    derived. *)
Definition token_grant (answer : fetch_result) : option (value * value * float) :=
  match answer with
  | Responded r =>
      match json r with
      | Some (VObj fs) =>
          if ok r && strict_eq_str (lookup_field "status" fs) "ok" then
            match getTokenExpiry (lookup_field "access_token" fs) with
            | Return e =>
                Some (lookup_field "access_token" fs, lookup_field "refresh_token" fs, e)
            | Throw _ => None
            end
          else None
      | _ => None
      end
  | Failed => None
  end.

(** The stored entry is absent or a complete pair whose expiry is the one
    derived from its own access token. *)
Definition complete_pair_or_absent (entry : option value) : Prop :=
  entry = None \/
  exists access refresh e,
    entry = Some (token_pair access refresh (VNum e)) /\ getTokenExpiry access = Return e.

End Client.
End Popup.

(** * The web page: the script of [src/index.html] *)

Module Web.

Definition BASE_URL : string := "https://ranfysvalle02--wishlist-api-fastapi-app.modal.run".

(** [ENDPOINTS] *)
Definition ENDPOINTS_register : string := BASE_URL +:+ "/register".
Definition ENDPOINTS_authenticate : string := BASE_URL +:+ "/authenticate".
Definition ENDPOINTS_refresh : string := BASE_URL +:+ "/refresh".

(** What the page's script reads and writes. *)
Record page : Type := mkPage {
  accessToken : value;                  (* let accessToken *)
  refreshToken : value;                 (* let refreshToken *)
  localStorage : gmap string string;
  alerts : list string;                 (* the texts passed to alert, oldest first *)
  console : list string;                (* the labels passed to console.error *)
  authSection_hidden : bool;            (* #authSection carries the class hidden *)
  welcomeSection_hidden : bool;         (* #welcomeSection carries the class hidden *)
  trace : list request                  (* the fetch calls issued, oldest first *)
}.

Definition set_tokens (access refresh : value) (p : page) : page :=
  mkPage access refresh (localStorage p) (alerts p) (console p)
         (authSection_hidden p) (welcomeSection_hidden p) (trace p).

Definition set_localStorage (m : gmap string string) (p : page) : page :=
  mkPage (accessToken p) (refreshToken p) m (alerts p) (console p)
         (authSection_hidden p) (welcomeSection_hidden p) (trace p).

Definition set_alerts (a : list string) (p : page) : page :=
  mkPage (accessToken p) (refreshToken p) (localStorage p) a (console p)
         (authSection_hidden p) (welcomeSection_hidden p) (trace p).

Definition set_console (c : list string) (p : page) : page :=
  mkPage (accessToken p) (refreshToken p) (localStorage p) (alerts p) c
         (authSection_hidden p) (welcomeSection_hidden p) (trace p).

(** The two sections the script shows and hides. *)
Inductive section_id : Type := authSection | welcomeSection.

Definition set_hidden (s : section_id) (hidden : bool) (p : page) : page :=
  match s with
  | authSection =>
      mkPage (accessToken p) (refreshToken p) (localStorage p) (alerts p) (console p)
             hidden (welcomeSection_hidden p) (trace p)
  | welcomeSection =>
      mkPage (accessToken p) (refreshToken p) (localStorage p) (alerts p) (console p)
             (authSection_hidden p) hidden (trace p)
  end.

Definition set_trace (t : list request) (p : page) : page :=
  mkPage (accessToken p) (refreshToken p) (localStorage p) (alerts p) (console p)
         (authSection_hidden p) (welcomeSection_hidden p) t.

(** The [options] argument of [authenticatedFetch], with plain objects
    for [headers]; [fetch] takes GET when no method is given. *)
Record options : Type := mkOptions {
  opt_method : option string;
  opt_headers : option (list (string * string));
  opt_body : option value
}.

(** [localStorage.getItem(k) || ''] *)
Definition getItem_or_empty (k : string) (m : gmap string string) : value :=
  VStr (default "" (m !! k)).

Section Client.
Context {P : Platform} (net : network).

Definition fetch (req : request) : Js page response := fun p =>
  let p' := set_trace (trace p ++ [req]) p in
  match net (trace p) req with
  | Failed => (Throw (Builtin NetworkError), p')
  | Responded r => (Return r, p')
  end.

Definition alert (text : string) : Js page unit :=
  modify (fun p => set_alerts (alerts p ++ [text]) p).

Definition console_error (label : string) : Js page unit :=
  modify (fun p => set_console (console p ++ [label]) p).

(** [localStorage.setItem] stores the string of its argument. *)
Definition storeTokens (access refresh : value) : Js page unit :=
  modify (set_tokens access refresh) ;;
  modify (fun p => set_localStorage (<["accessToken" := ToString (accessToken p)]> (localStorage p)) p) ;;
  modify (fun p => set_localStorage (<["refreshToken" := ToString (refreshToken p)]> (localStorage p)) p).

Definition loadTokens : Js page unit :=
  modify (fun p => set_tokens (getItem_or_empty "accessToken" (localStorage p))
                              (getItem_or_empty "refreshToken" (localStorage p)) p).

Definition clearTokens : Js page unit :=
  modify (set_tokens (VStr "") (VStr "")) ;;
  modify (fun p => set_localStorage (delete "accessToken" (localStorage p)) p) ;;
  modify (fun p => set_localStorage (delete "refreshToken" (localStorage p)) p).

Definition isAuthenticated : Js page bool :=
  gets (fun p => ToBoolean (accessToken p)).

(** [showSection] and [hideSection], as far as the class [hidden] goes:
    the first removes it, the second adds it unless it is there. *)
Definition showSection (s : section_id) : Js page unit := modify (set_hidden s false).
Definition hideSection (s : section_id) : Js page unit := modify (set_hidden s true).

Definition logout : Js page unit :=
  clearTokens ;;
  modify (fun p => set_localStorage (delete "username" (localStorage p)) p) ;;
  showSection authSection ;;
  hideSection welcomeSection.

Definition refresh_request (held : value) : request :=
  post_json ENDPOINTS_refresh (VObj [("refresh_token", held)]).

Definition refreshAccessToken : Js page bool :=
  let* held := gets refreshToken in
  if negb (ToBoolean held) then ret false
  else
    try_catch
      (let* response := fetch (refresh_request held) in
       if ok response then
         let* data := response_json response in
         let* access := lift (member data "access_token") in
         let* refresh := lift (member data "refresh_token") in
         storeTokens access refresh ;;
         ret true
       else
         clearTokens ;;
         ret false)
      (fun error =>
         console_error "Error refreshing token:" ;;
         clearTokens ;;
         ret false).

Definition bearer (token : value) : string := "Bearer " +:+ ToString token.

Definition authenticatedFetch (target : string) (o : options) : Js page response :=
  let headers0 := default [] (opt_headers o) in
  let* token := gets accessToken in
  let headers1 := assign "Authorization" (bearer token) headers0 in
  let* response := fetch (mkRequest target (default "GET" (opt_method o)) headers1 (opt_body o)) in
  if (status response =? 401)%Z then
    let* refreshed := refreshAccessToken in
    if refreshed then
      let* token' := gets accessToken in
      let headers2 := assign "Authorization" (bearer token') headers1 in
      fetch (mkRequest target (default "GET" (opt_method o)) headers2 (opt_body o))
    else
      alert "Session expired. Please log in again." ;;
      logout ;;
      throw (Error "Authentication required")
  else ret response.

(** [errorData.detail || 'Unknown error'] appended to a prefix. *)
Definition detail_or_unknown (prefix : string) (errorData : value) : outcome string :=
  match member errorData "detail" with
  | Return d => Return (prefix +:+ (if ToBoolean d then ToString d else "Unknown error"))
  | Throw e => Throw e
  end.

Definition register (username password : string) : Js page bool :=
  try_catch
    (let* response := fetch (post_json ENDPOINTS_register
                               (VObj [("username", VStr username); ("password", VStr password)])) in
     if ok response then
       alert "Registration successful! You can now log in." ;;
       ret true
     else
       let* errorData := response_json response in
       let* text := lift (detail_or_unknown "Registration failed: " errorData) in
       alert text ;;
       ret false)
    (fun error =>
       console_error "Error registering:" ;;
       alert "Error registering." ;;
       ret false).

Definition login (username password : string) : Js page bool :=
  try_catch
    (let* response := fetch (post_json ENDPOINTS_authenticate
                               (VObj [("username", VStr username); ("password", VStr password)])) in
     if ok response then
       let* data := response_json response in
       let* access := lift (member data "access_token") in
       let* refresh := lift (member data "refresh_token") in
       storeTokens access refresh ;;
       modify (fun p => set_localStorage (<["username" := username]> (localStorage p)) p) ;;
       ret true
     else
       let* errorData := response_json response in
       let* text := lift (detail_or_unknown "Login failed: " errorData) in
       alert text ;;
       ret false)
    (fun error =>
       console_error "Error logging in:" ;;
       alert "Error logging in." ;;
       ret false).

(** The page once [clearTokens] has run. *)
Definition cleared (p : page) : page :=
  set_localStorage (delete "refreshToken" (delete "accessToken" (localStorage p)))
    (set_tokens (VStr "") (VStr "") p).

(** The page once [storeTokens access refresh] has run. *)
Definition stored (access refresh : value) (p : page) : page :=
  set_localStorage (<["refreshToken" := ToString refresh]>
                      (<["accessToken" := ToString access]> (localStorage p)))
    (set_tokens access refresh p).

(** The call [authenticatedFetch] makes for [target] and [o] when the
    access token is [token]. *)
Definition authorized_request (target : string) (o : options) (token : value) : request :=
  mkRequest target (default "GET" (opt_method o))
            (assign "Authorization" (bearer token) (default [] (opt_headers o)))
            (opt_body o).

(** What an answer to the refresh call grants: the two tokens [storeTokens]
    receives, when the answer is OK and its body is JSON other than null. *)
Definition refresh_grant (answer : fetch_result) : option (value * value) :=
  match answer with
  | Responded r =>
      if ok r then
        match json r with
        | Some data =>
            match member data "access_token", member data "refresh_token" with
            | Return access, Return refresh => Some (access, refresh)
            | _, _ => None
            end
        | None => None
        end
      else None
  | Failed => None
  end.

End Client.

(** The page after [logout]. *)
Definition logged_out (p : page) : Prop :=
  accessToken p = VStr "" /\ refreshToken p = VStr "" /\
  localStorage p !! "accessToken" = None /\ localStorage p !! "refreshToken" = None /\
  localStorage p !! "username" = None /\
  authSection_hidden p = false /\ welcomeSection_hidden p = true.

End Web.

(** * The popup's start, and what its answers mean *)

Module PopupStart.

(** [init], run on DOMContentLoaded: the four listeners it registers are
    the handlers of [Popup.perform]; what it does itself is the check of
    the login status. *)
Definition init : Js Popup.world unit := Popup.checkLoginStatus.

(** An answer the popup takes as a success: OK, with a JSON body whose
    status is ok. *)
Definition accepted (answer : fetch_result) : bool :=
  match answer with
  | Responded r =>
      match json r with
      | Some (VObj fs) => ok r && strict_eq_str (lookup_field "status" fs) "ok"
      | _ => false
      end
  | Failed => false
  end.

(** The state a handler leaves when all it did was to issue calls and to
    show a message. *)
Definition reported (shown : option (value * Popup.status_class)) (calls : list request)
    (w : Popup.world) : Popup.world :=
  Popup.set_status_div shown (Popup.set_trace (Popup.trace w ++ calls) w).

(** [tokens.k], for the [tokens] that [getStoredTokens] resolves to. *)
Definition stored_token (w : Popup.world) (k : string) : outcome value :=
  member (default VUndef (Popup.chrome_local w !! "auth_tokens")) k.

(** The calls a handler may add to the trace, and when. *)
Definition calls_allowed {P : Platform} (net : network) (a : Popup.action) (w : Popup.world)
    (calls : list request) : Prop :=
  match a with
  | Popup.Register =>
      ((trim (Popup.username_input w) = "" \/ String.length (Popup.password_input w) < 8) /\
       calls = []) \/
      (trim (Popup.username_input w) <> "" /\ 8 <= String.length (Popup.password_input w) /\
       calls = [Popup.register_request (trim (Popup.username_input w)) (Popup.password_input w)])
  | Popup.Login =>
      ((trim (Popup.username_input w) = "" \/ Popup.password_input w = "") /\ calls = []) \/
      (trim (Popup.username_input w) <> "" /\ Popup.password_input w <> "" /\
       calls = [Popup.authenticate_request (trim (Popup.username_input w))
                  (Popup.password_input w)])
  | Popup.Logout | Popup.CheckLoginStatus => calls = []
  | Popup.AccessProtected =>
      calls = [] \/
      (exists access,
          stored_token w "access_token" = Return access /\
          calls = [Popup.protected_request access]) \/
      (exists held,
          stored_token w "refresh_token" = Return held /\
          Popup.token_grant (net (Popup.trace w) (Popup.refresh_request held)) = None /\
          calls = [Popup.refresh_request held]) \/
      (exists held access refresh e,
          stored_token w "refresh_token" = Return held /\
          Popup.token_grant (net (Popup.trace w) (Popup.refresh_request held)) =
            Some (access, refresh, e) /\
          calls = [Popup.refresh_request held; Popup.protected_request access])
  end.

(** The logout button is shown only while a token entry is stored. *)
Definition button_matches_storage (w : Popup.world) : Prop :=
  Popup.logout_hidden w = false -> is_Some (Popup.chrome_local w !! "auth_tokens").

End PopupStart.

(** * The web page's listeners: [src/index.html], lines 301-374 *)

Module WebUI.

(** The document around the script: the script's own state, the two
    inputs of the modal, the greeting, and the [bootstrap.Modal] of
    [#authModal] - whether an instance was made and, if so, whether it is
    shown.  [bootstrap.Modal.getInstance] gives null when none was made. *)
Record document : Type := mkDocument {
  script : Web.page;
  usernameInput : string;          (* #usernameInput, its value *)
  passwordInput : string;          (* #passwordInput, its value *)
  authModal : option bool;
  welcomeMessage : string          (* #welcomeMessage, its textContent *)
}.

Definition set_script (p : Web.page) (d : document) : document :=
  mkDocument p (usernameInput d) (passwordInput d) (authModal d) (welcomeMessage d).

Definition set_inputs (username password : string) (d : document) : document :=
  mkDocument (script d) username password (authModal d) (welcomeMessage d).

Definition set_authModal (m : option bool) (d : document) : document :=
  mkDocument (script d) (usernameInput d) (passwordInput d) m (welcomeMessage d).

Definition set_welcomeMessage (text : string) (d : document) : document :=
  mkDocument (script d) (usernameInput d) (passwordInput d) (authModal d) text.

(** A function of the script, run inside the document. *)
Definition in_script {A} (m : Js Web.page A) : Js document A := fun d =>
  match m (script d) with
  | (o, p') => (o, set_script p' d)
  end.

(** The calls [Web.login] and [Web.register] make. *)
Definition authenticate_request (username password : string) : request :=
  post_json Web.ENDPOINTS_authenticate
            (VObj [("username", VStr username); ("password", VStr password)]).

Definition register_request (username password : string) : request :=
  post_json Web.ENDPOINTS_register
            (VObj [("username", VStr username); ("password", VStr password)]).

(** [response.ok] of an answer, false when there is none. *)
Definition answered_ok (answer : fetch_result) : bool :=
  match answer with
  | Responded r => ok r
  | Failed => false
  end.

(** The page after a function of the script that only issued calls,
    alerted and logged. *)
Definition noted (calls : list request) (texts log : list string) (p : Web.page) : Web.page :=
  Web.set_console (Web.console p ++ log)
    (Web.set_alerts (Web.alerts p ++ texts)
       (Web.set_trace (Web.trace p ++ calls) p)).

Section Listeners.
Context {P : Platform} (net : network).

(** [bootstrap.Modal.getInstance(...)] followed by [.hide()], taken to
    hide the modal at once. *)
Definition hide_modal : Js document unit := fun d =>
  match authModal d with
  | Some _ => (Return tt, set_authModal (Some false) d)
  | None => (Throw (Builtin TypeError), d)
  end.

(** The listener of [#loginButton]: [new bootstrap.Modal(...)], [show()]. *)
Definition loginButton_click : Js document unit :=
  modify (set_authModal (Some true)).

(** The listener of [#logoutButton]. *)
Definition logoutButton_click : Js document unit := in_script Web.logout.

(** The listener of [#loginModalButton]. *)
Definition loginModalButton_click : Js document unit :=
  let* username := gets (fun d => trim (usernameInput d)) in
  let* password := gets passwordInput in
  if ToBoolean (VStr username) && ToBoolean (VStr password) then
    let* success := in_script (Web.login net username password) in
    if success then
      hide_modal ;;
      in_script (Web.hideSection Web.authSection) ;;
      in_script (Web.showSection Web.welcomeSection) ;;
      modify (set_welcomeMessage ("Welcome, " +:+ username +:+ "!")) ;;
      modify (set_inputs "" "")
    else ret tt
  else in_script (Web.alert "Please enter username and password.").

(** The listener of [#registerModalButton]. *)
Definition registerModalButton_click : Js document unit :=
  let* username := gets (fun d => trim (usernameInput d)) in
  let* password := gets passwordInput in
  if ToBoolean (VStr username) && ToBoolean (VStr password) then
    let* success := in_script (Web.register net username password) in
    if success then modify (set_inputs "" "") else ret tt
  else in_script (Web.alert "Please enter username and password.").

(** [localStorage.getItem('username') || 'User'] *)
Definition username_or_User (m : gmap string string) : string :=
  match m !! "username" with
  | Some name => if String.eqb name "" then "User" else name
  | None => "User"
  end.

(** The listener of DOMContentLoaded. *)
Definition DOMContentLoaded : Js document unit :=
  in_script Web.loadTokens ;;
  let* authenticated := in_script Web.isAuthenticated in
  if authenticated then
    in_script (Web.hideSection Web.authSection) ;;
    in_script (Web.showSection Web.welcomeSection) ;;
    let* username := gets (fun d => username_or_User (Web.localStorage (script d))) in
    modify (set_welcomeMessage ("Welcome, " +:+ username +:+ "!"))
  else
    in_script (Web.showSection Web.authSection) ;;
    in_script (Web.hideSection Web.welcomeSection).

(** What the page can do between two loads: a listener runs, or the user
    types into the two inputs. *)
Inductive event : Type :=
| ClickLoginButton | ClickLogoutButton | ClickLoginModalButton | ClickRegisterModalButton
| Type_ (username password : string).

Definition handle (e : event) : Js document unit :=
  match e with
  | ClickLoginButton => loginButton_click
  | ClickLogoutButton => logoutButton_click
  | ClickLoginModalButton => loginModalButton_click
  | ClickRegisterModalButton => registerModalButton_click
  | Type_ username password => modify (set_inputs username password)
  end.

(** The events of a list, one after the other; an exception thrown by a
    listener ends that listener only. *)
Fixpoint handle_all (es : list event) (d : document) : document :=
  match es with
  | [] => d
  | e :: rest => handle_all rest (snd (handle e d))
  end.

End Listeners.

(** The document a reload starts from: [localStorage] stays, the script's
    variables and the elements are those of the file again.  (The alerts,
    the console and the trace are the record of what happened; they stay.) *)
Definition opened (d : document) : document :=
  mkDocument
    (Web.mkPage (VStr "") (VStr "") (Web.localStorage (script d))
                (Web.alerts (script d)) (Web.console (script d)) false true
                (Web.trace (script d)))
    "" "" None "".

(** A reload, up to the end of the listener of DOMContentLoaded. *)
Definition reload {P : Platform} (d : document) : document :=
  snd (DOMContentLoaded (opened d)).

(** The script's two variables are what [localStorage] holds: each has
    the string of its entry, the empty string when there is none. *)
Definition mirrored {P : Platform} (p : Web.page) : Prop :=
  ToString (Web.accessToken p) = default "" (Web.localStorage p !! "accessToken") /\
  ToString (Web.refreshToken p) = default "" (Web.localStorage p !! "refreshToken").

End WebUI.

(** * A platform to run the clients on

    The theorems below hold for every [Platform].  To evaluate the clients
    on concrete inputs one is fixed here.  Its [JSON.parse] reads the JSON
    texts made of null, true, false, integer literals of at most fifteen
    digits, strings without escapes, arrays and objects, and answers [None]
    on every other text; its coercions answer for objects ([NaN] and
    [[object Object]]).  The concrete inputs used below stay within that. *)

Module Sample.

Definition is_json_space (c : ascii) : bool :=
  let n := N_of_ascii c in
  ((n =? 9) || (n =? 10) || (n =? 13) || (n =? 32))%N.

Fixpoint skip_space (cs : list ascii) : list ascii :=
  match cs with
  | c :: rest => if is_json_space c then skip_space rest else cs
  | [] => []
  end.

Fixpoint strip_prefix (prefix cs : list ascii) : option (list ascii) :=
  match prefix, cs with
  | [], _ => Some cs
  | p :: prefix', c :: rest => if Ascii.eqb p c then strip_prefix prefix' rest else None
  | _ :: _, [] => None
  end.

Definition digit (c : ascii) : option float :=
  let n := N_of_ascii c in
  if (n =? 48)%N then Some 0%float else if (n =? 49)%N then Some 1%float
  else if (n =? 50)%N then Some 2%float else if (n =? 51)%N then Some 3%float
  else if (n =? 52)%N then Some 4%float else if (n =? 53)%N then Some 5%float
  else if (n =? 54)%N then Some 6%float else if (n =? 55)%N then Some 7%float
  else if (n =? 56)%N then Some 8%float else if (n =? 57)%N then Some 9%float
  else None.

(** The digits at the front of [cs], as a number, with their count. *)
Fixpoint digits (acc : float) (count : nat) (cs : list ascii) : float * nat * list ascii :=
  match cs with
  | c :: rest =>
      match digit c with
      | Some d => digits (PrimFloat.add (PrimFloat.mul acc 10) d) (S count) rest
      | None => (acc, count, cs)
      end
  | [] => (acc, count, [])
  end.

Definition continues_number (cs : list ascii) : bool :=
  match cs with
  | c :: _ => Ascii.eqb c "." || Ascii.eqb c "e" || Ascii.eqb c "E"
  | [] => false
  end.

(** An integer literal: no leading zero, no fraction, no exponent. *)
Definition parse_integer (cs : list ascii) : option (float * list ascii) :=
  match cs with
  | c :: rest =>
      match digit c with
      | Some d =>
          let '(x, count, rest') :=
            if Ascii.eqb c "0" then (d, 1%nat, rest) else digits d 1 rest in
          if continues_number rest' || (15 <? count)%nat then None
          else match rest' with
               | c' :: _ => match digit c' with Some _ => None | None => Some (x, rest') end
               | [] => Some (x, rest')
               end
      | None => None
      end
  | [] => None
  end.

Definition parse_number (cs : list ascii) : option (value * list ascii) :=
  match cs with
  | "-"%char :: rest =>
      match parse_integer rest with
      | Some (x, rest') => Some (VNum (PrimFloat.opp x), rest')
      | None => None
      end
  | _ =>
      match parse_integer cs with
      | Some (x, rest') => Some (VNum x, rest')
      | None => None
      end
  end.

(** The characters of a string up to its closing quote. *)
Fixpoint parse_chars (cs : list ascii) : option (string * list ascii) :=
  match cs with
  | [] => None
  | c :: rest =>
      if Ascii.eqb c "034" then Some (EmptyString, rest)
      else if Ascii.eqb c "\" || (N_of_ascii c <? 32)%N then None
      else match parse_chars rest with
           | Some (s, rest') => Some (String c s, rest')
           | None => None
           end
  end.

Fixpoint parse_value (fuel : nat) (cs : list ascii) {struct fuel} : option (value * list ascii) :=
  match fuel with
  | O => None
  | S fuel' =>
      let cs := skip_space cs in
      match cs with
      | [] => None
      | c :: rest =>
          if Ascii.eqb c "034" then
            match parse_chars rest with
            | Some (s, rest') => Some (VStr s, rest')
            | None => None
            end
          else if Ascii.eqb c "[" then
            match skip_space rest with
            | "]"%char :: rest' => Some (VArr [], rest')
            | _ => parse_elements fuel' rest []
            end
          else if Ascii.eqb c "{" then
            match skip_space rest with
            | "}"%char :: rest' => Some (VObj [], rest')
            | _ => parse_members fuel' rest []
            end
          else
            match strip_prefix (list_ascii_of_string "null") cs with
            | Some rest' => Some (VNull, rest')
            | None =>
            match strip_prefix (list_ascii_of_string "true") cs with
            | Some rest' => Some (VBool true, rest')
            | None =>
            match strip_prefix (list_ascii_of_string "false") cs with
            | Some rest' => Some (VBool false, rest')
            | None => parse_number cs
            end end end
      end
  end
with parse_elements (fuel : nat) (cs : list ascii) (seen : list value) {struct fuel}
  : option (value * list ascii) :=
  match fuel with
  | O => None
  | S fuel' =>
      match parse_value fuel' cs with
      | Some (v, rest) =>
          match skip_space rest with
          | ","%char :: rest' => parse_elements fuel' rest' (seen ++ [v])
          | "]"%char :: rest' => Some (VArr (seen ++ [v]), rest')
          | _ => None
          end
      | None => None
      end
  end
with parse_members (fuel : nat) (cs : list ascii) (seen : list (string * value)) {struct fuel}
  : option (value * list ascii) :=
  match fuel with
  | O => None
  | S fuel' =>
      match skip_space cs with
      | "034"%char :: rest =>
          match parse_chars rest with
          | Some (k, rest1) =>
              match skip_space rest1 with
              | ":"%char :: rest2 =>
                  match parse_value fuel' rest2 with
                  | Some (v, rest3) =>
                      match skip_space rest3 with
                      | ","%char :: rest4 => parse_members fuel' rest4 (assign k v seen)
                      | "}"%char :: rest4 => Some (VObj (assign k v seen), rest4)
                      | _ => None
                      end
                  | None => None
                  end
              | _ => None
              end
          | None => None
          end
      | _ => None
      end
  end.

Definition parse (text : string) : option value :=
  let cs := list_ascii_of_string text in
  match parse_value (2 * length cs + 2) cs with
  | Some (v, rest) => match skip_space rest with [] => Some v | _ => None end
  | None => None
  end.

Definition platform : Platform := {|
  JSON_parse := parse;
  ToNumber_other := fun _ => PrimFloat.nan;
  ToString_other := fun _ => "[object Object]";
  builtin_message := fun k =>
    match k with
    | TypeError => "TypeError"
    | SyntaxError => "SyntaxError"
    | InvalidCharacterError => "InvalidCharacterError"
    | NetworkError => "Failed to fetch"
    end
|}.

(** Tokens as the API issues them when no character of the payload falls
    outside the alphabet of [atob]: header, claims and signature. *)
Definition jwt_header : string := "eyJhbGciOiJIUzI1NiIsInR5cCI6IkpXVCJ9".

(** claims: sub alice, exp 1700000000 *)
Definition access_old : string :=
  jwt_header +:+ ".eyJzdWIiOiJhbGljZSIsImV4cCI6MTcwMDAwMDAwMH0.c2ln".

(** claims: sub alice, exp 1700000900 *)
Definition access_new : string :=
  jwt_header +:+ ".eyJzdWIiOiJhbGljZSIsImV4cCI6MTcwMDAwMDkwMH0.c2ln".

(** claims: sub alice, exp 1715552000 *)
Definition refresh_old : string :=
  jwt_header +:+ ".eyJzdWIiOiJhbGljZSIsImV4cCI6MTcxNTU1MjAwMH0.b2xk".

Definition refresh_new : string :=
  jwt_header +:+ ".eyJzdWIiOiJhbGljZSIsImV4cCI6MTcxNTU1MjAwMH0.bmV3".

(** A server that accepts every call: GET is answered as [/protected]
    answers, POST with a fresh token pair. *)
Definition accepting : network := fun _ req =>
  if String.eqb (method req) "GET" then
    Responded (mkResponse 200 (Some (VObj [("status", VStr "ok");
                                           ("message", VStr "Hello, alice!")])))
  else
    Responded (mkResponse 200 (Some (VObj [("status", VStr "ok");
                                           ("access_token", VStr access_new);
                                           ("refresh_token", VStr refresh_new)]))).

(** A server that refuses every call, the way the API reports errors. *)
Definition refusing : network := fun _ _ =>
  Responded (mkResponse 401 (Some (VObj [("detail", VStr "Invalid credentials.")]))).

(** The popup of a logged-in user at the given time: [access_old] is
    stored with its expiry, 1700000000000 ms. *)
Definition logged_in (time : float) : Popup.world :=
  Popup.mkWorld
    {[ "auth_tokens" :=
         Popup.token_pair (VStr access_old) (VStr refresh_old) (VNum 1700000000000) ]}
    None {[ "username" := "alice" ]} "" "" None false time [].

(** The popup before any login, the two inputs filled in. *)
Definition logged_out (username password : string) : Popup.world :=
  Popup.mkWorld ∅ None ∅ username password None true 1700000000000 [].

(** The page as it loads for a visitor who never logged in. *)
Definition visitor : Web.page :=
  Web.mkPage (VStr "") (VStr "") ∅ [] [] false true [].

(** The page of a logged-in user. *)
Definition member_page : Web.page :=
  Web.mkPage (VStr access_old) (VStr refresh_old)
    {[ "accessToken" := access_old; "refreshToken" := refresh_old; "username" := "alice" ]}
    [] [] true false [].

Definition plain_get : Web.options := Web.mkOptions None None None.

(** A server that answers the first call with 401, as for an expired
    access token, and accepts every later call. *)
Definition expired_once : network := fun earlier req =>
  match earlier with
  | [] => Responded (mkResponse 401 (Some (VObj [("detail", VStr "Access token expired.")])))
  | _ => accepting earlier req
  end.

(** A server of another kind: it accepts every call and hands out tokens
    that are not JWTs. *)
Definition opaque : network := fun _ _ =>
  Responded (mkResponse 200 (Some (VObj [("status", VStr "ok");
                                         ("access_token", VStr "b3BhcXVl");
                                         ("refresh_token", VStr "cmVmcmVzaA")]))).

(** An access token whose second segment is the base64 of the JSON text [1]. *)
Definition access_number : string := jwt_header +:+ ".MQ.c2ln".

(** The access token the API issues for the user named [~] (claims: sub ~,
    iat 1700000000, exp 1700000900): its second segment holds a [-], the
    base64url character for the sextet 62. *)
Definition access_tilde : string :=
  jwt_header +:+ ".eyJzdWIiOiJ-IiwiaWF0IjoxNzAwMDAwMDAwLCJleHAiOjE3MDAwMDA5MDB9.c2ln".

(** The popup of a logged-in user whose storage reads fail. *)
Definition storage_failing : Popup.world :=
  Popup.mkWorld
    {[ "auth_tokens" :=
         Popup.token_pair (VStr access_old) (VStr refresh_old) (VNum 1700000000000) ]}
    (Some "The storage is not available.") ∅ "" "" None false 1699999000000 [].

(** A server that answers every call with 200 and an empty object. *)
Definition empty_object : network := fun _ _ => Responded (mkResponse 200 (Some (VObj []))).

(** A server that accepts every call and issues the token of the user [~]. *)
Definition accepting_tilde : network := fun _ _ =>
  Responded (mkResponse 200 (Some (VObj [("status", VStr "ok");
                                         ("access_token", VStr access_tilde);
                                         ("refresh_token", VStr refresh_new)]))).

(** The web page with the modal open and the two inputs filled in. *)
Definition modal_open (username password : string) : WebUI.document :=
  WebUI.mkDocument visitor username password (Some true) "".

End Sample.

(** * The built-ins, on examples *)

Example split_jwt : split "." "h.p.s" = ["h"; "p"; "s"].
Proof. reflexivity. Qed.

Example split_no_dot : split "." "abc" = ["abc"].
Proof. reflexivity. Qed.

Example trim_both : trim "  bob " = "bob".
Proof. reflexivity. Qed.

Example atob_padded : atob "MQ==" = Some "1".
Proof. reflexivity. Qed.

Example atob_claims :
  atob "eyJleHAiOjE3MDAwMDAwMDB9" = Some ("{" +:+ dq +:+ "exp" +:+ dq +:+ ":1700000000}").
Proof. reflexivity. Qed.

Example atob_undefined : atob "undefined" = None.
Proof. reflexivity. Qed.

Example atob_base64url : atob "a-b_" = None.
Proof. reflexivity. Qed.

Example parse_claims :
  Sample.parse ("{" +:+ dq +:+ "exp" +:+ dq +:+ ":1700000000}") = Some (VObj [("exp", VNum 1700000000)]).
Proof. reflexivity. Qed.

Example parse_number_text : Sample.parse "1" = Some (VNum 1).
Proof. reflexivity. Qed.

Example parse_rejects_trailing_comma : Sample.parse "[1,]" = None.
Proof. reflexivity. Qed.

(** * The extension popup: what its functions do *)

Section PopupFacts.
Context {P : Platform} (net : network).
Import Popup.

Ltac js_unfold :=
  unfold accessProtected, login, register, logout, checkLoginStatus,
         getAccessToken, refreshAccessToken, storeTokens, getStoredTokens,
         setStatus, showLogoutButton, hideLogoutButton, fetch, response_json,
         try_catch, bind, ret, throw, lift, modify, gets.

Ltac js_cases := repeat (case_match; simplify_eq; cbn in *; try done).

Lemma storeTokens_stores (access refresh : value) (e : float) (w : world) :
  getTokenExpiry access = Return e ->
  storeTokens access refresh w =
    (Return tt,
     set_chrome_local (<["auth_tokens" := token_pair access refresh (VNum e)]> (chrome_local w)) w).
Proof. intros He. js_unfold. by rewrite He. Qed.

Lemma storeTokens_throws (access refresh : value) (ex : exn) (w : world) :
  getTokenExpiry access = Throw ex -> storeTokens access refresh w = (Throw ex, w).
Proof. intros He. js_unfold. by rewrite He. Qed.

Lemma token_grant_inv (answer : fetch_result) (a r : value) (e : float) :
  token_grant answer = Some (a, r, e) ->
  exists resp fs,
    answer = Responded resp /\ json resp = Some (VObj fs) /\ ok resp = true /\
    lookup_field "status" fs = VStr "ok" /\
    a = lookup_field "access_token" fs /\ r = lookup_field "refresh_token" fs /\
    getTokenExpiry a = Return e.
Proof.
  unfold token_grant. intros H.
  destruct answer as [|resp]; [done|].
  destruct (json resp) as [[| | | | | |fs]|] eqn:Hj; try done.
  destruct (ok resp) eqn:Hok; [|done]. cbn in H.
  destruct (lookup_field "status" fs) as [| | | |s| |] eqn:Hs; try done. cbn in H.
  destruct (String.eqb_spec s "ok") as [->|]; [|done].
  destruct (getTokenExpiry _) eqn:He; [|done].
  injection H as <- <- <-. eauto 10.
Qed.

Lemma refreshAccessToken_granted (held : value) (w : world) (a r : value) (e : float) :
  token_grant (net (trace w) (refresh_request held)) = Some (a, r, e) ->
  refreshAccessToken net held w =
    (Return (VObj [("access_token", a); ("refresh_token", r)]),
     set_chrome_local (<["auth_tokens" := token_pair a r (VNum e)]> (chrome_local w))
       (set_trace (trace w ++ [refresh_request held]) w)).
Proof.
  intros H. apply token_grant_inv in H as (resp & fs & Hn & Hj & Hok & Hs & -> & -> & He).
  js_unfold. rewrite Hn. cbn. rewrite Hj. cbn. unfold ok_and_status_ok. rewrite Hok. cbn.
  rewrite Hs. cbn. rewrite He. done.
Qed.

Lemma refreshAccessToken_refused (held : value) (w : world) :
  token_grant (net (trace w) (refresh_request held)) = None ->
  exists ex, refreshAccessToken net held w =
               (Throw ex, set_trace (trace w ++ [refresh_request held]) w).
Proof.
  unfold token_grant. intros H. js_unfold. unfold ok_and_status_ok.
  destruct (net _ _) as [|resp]; cbn; [eauto|].
  destruct (json resp) as [body|]; cbn; [|eauto].
  destruct body; cbn; eauto.
  all: try (destruct (ok resp); cbn; eauto).
  destruct (strict_eq_str _ _); cbn in *; eauto.
  destruct (getTokenExpiry _); cbn; eauto. done.
Qed.

Lemma getAccessToken_unexpired (w : world) (access refresh expiry : value) :
  lastError w = None ->
  chrome_local w !! "auth_tokens" = Some (token_pair access refresh expiry) ->
  PrimFloat.ltb (ToNumber expiry) (now w) = false ->
  getAccessToken net w = (Return access, w).
Proof.
  intros Hread Hpair Hfresh. js_unfold. rewrite Hread, Hpair. cbn. by rewrite Hfresh.
Qed.

Lemma getAccessToken_expired (w : world) (access refresh expiry : value) :
  lastError w = None ->
  chrome_local w !! "auth_tokens" = Some (token_pair access refresh expiry) ->
  PrimFloat.ltb (ToNumber expiry) (now w) = true ->
  getAccessToken net w =
    (let* newTokens := refreshAccessToken net refresh in
     lift (member newTokens "access_token")) w.
Proof.
  intros Hread Hpair Hpast. unfold getAccessToken, getStoredTokens, bind at 1 2 3 4, gets, lift.
  rewrite Hread, Hpair. cbn. by rewrite Hpast.
Qed.

Lemma getAccessToken_no_tokens (w : world) :
  lastError w = None ->
  chrome_local w !! "auth_tokens" = None ->
  getAccessToken net w = (Throw (Error "No tokens found. Please login."), w).
Proof. intros Hread Hnone. js_unfold. by rewrite Hread, Hnone. Qed.

(** Once the access token is there, [accessProtected] issues the one
    call that carries it and shows a message; nothing else changes. *)
Lemma accessProtected_with_token (w w1 : world) (access : value) :
  getAccessToken net w = (Return access, w1) ->
  exists shown,
    accessProtected net w =
      (Return tt,
       set_status_div shown (set_trace (trace w1 ++ [protected_request access]) w1)).
Proof.
  intros Htok. unfold accessProtected, try_catch, bind at 1. rewrite Htok. clear Htok.
  js_unfold. unfold ok_and_status_ok.
  destruct (net _ _) as [|resp]; cbn; [eauto|].
  destruct (json resp) as [body|]; cbn; [|eauto].
  destruct (ok resp); cbn.
  - destruct (member body "status") as [s|]; cbn; [|eauto].
    destruct (strict_eq_str s "ok"), (member body "message"); cbn; eauto.
  - destruct (member body "message"); cbn; eauto.
Qed.

Lemma accessProtected_without_token (w w1 : world) (ex : exn) :
  getAccessToken net w = (Throw ex, w1) ->
  accessProtected net w =
    (Return tt, set_status_div (Some (VStr (message ex), StatusError)) w1).
Proof.
  intros Htok. unfold accessProtected, try_catch, bind at 1. rewrite Htok. by js_unfold.
Qed.

(** C6.  A protected-resource request made while a token pair is cached
    (and the storage read succeeds) whose stored expiry is not in the past
    - the comparison [Date.now() > access_token_expiry] is false - issues
    exactly one HTTP call, the request to [/protected] carrying the cached
    access token: no refresh call, no retry, whatever the server answers. *)
Theorem unexpired_token_single_call (w : world) (access refresh expiry : value) :
  lastError w = None ->
  chrome_local w !! "auth_tokens" = Some (token_pair access refresh expiry) ->
  PrimFloat.ltb (ToNumber expiry) (now w) = false ->
  trace (snd (accessProtected net w)) = trace w ++ [protected_request access].
Proof.
  intros Hread Hpair Hfresh.
  destruct (accessProtected_with_token w w access) as [shown ->]; [|done].
  by apply getAccessToken_unexpired with refresh expiry.
Qed.

(** C1, amended.  A protected-resource request made while a token pair is
    cached whose stored expiry is in the past issues exactly one call to
    [/refresh], carrying the cached refresh token.  When that refresh is
    granted (OK answer, status ok, an access token whose expiry can be
    derived) exactly one call to [/protected] follows, carrying the newly
    obtained access token; when it is not, no call follows.  No other
    HTTP call is made. *)
Theorem expired_token_refresh_then_call (w : world) (access refresh expiry : value) :
  lastError w = None ->
  chrome_local w !! "auth_tokens" = Some (token_pair access refresh expiry) ->
  PrimFloat.ltb (ToNumber expiry) (now w) = true ->
  trace (snd (accessProtected net w)) =
    trace w ++ refresh_request refresh ::
      match token_grant (net (trace w) (refresh_request refresh)) with
      | Some (access', _, _) => [protected_request access']
      | None => []
      end.
Proof.
  intros Hread Hpair Hpast.
  pose proof (getAccessToken_expired w access refresh expiry Hread Hpair Hpast) as Hget.
  destruct (token_grant _) as [[[access' refresh'] e]|] eqn:Hgrant.
  - unfold bind in Hget. rewrite (refreshAccessToken_granted _ _ _ _ _ Hgrant) in Hget.
    unfold lift in Hget. cbn in Hget.
    destruct (accessProtected_with_token _ _ _ Hget) as [shown ->].
    cbn. by rewrite <- app_assoc.
  - destruct (refreshAccessToken_refused _ _ Hgrant) as [ex Hrefused].
    unfold bind in Hget. rewrite Hrefused in Hget.
    by rewrite (accessProtected_without_token _ _ _ Hget).
Qed.

(** C4.  Logout removes the cached token pair and the stored display
    name.  In the state it leaves - any state whose token storage is the
    one logout left, read without a storage error - a protected-resource
    attempt fails with the no-tokens error before any network call: the
    trace is unchanged, the error is shown, and the storage stays
    cleared, so the same holds for every later attempt. *)
Theorem logout_then_no_tokens (w w' : world) :
  chrome_local w' = chrome_local (snd (logout w)) ->
  lastError w' = None ->
  chrome_local (snd (logout w)) !! "auth_tokens" = None /\
  localStorage (snd (logout w)) !! "username" = None /\
  trace (snd (accessProtected net w')) = trace w' /\
  status_div (snd (accessProtected net w')) =
    Some (VStr "No tokens found. Please login.", StatusError) /\
  chrome_local (snd (accessProtected net w')) = chrome_local w'.
Proof.
  intros Hsame Hread.
  assert (Hgone : chrome_local (snd (logout w)) !! "auth_tokens" = None)
    by (js_unfold; cbn; apply lookup_delete_eq).
  split; [done|]. split; [js_unfold; cbn; apply lookup_delete_eq|].
  rewrite <- Hsame in Hgone.
  by rewrite (accessProtected_without_token _ _ _ (getAccessToken_no_tokens w' Hread Hgone)).
Qed.

Lemma empty_is_falsy (s : string) : negb (ToBoolean (VStr s)) = true <-> s = "".
Proof.
  cbn. rewrite negb_involutive. apply String.eqb_eq.
Qed.

Lemma nonempty_is_truthy (s : string) : s <> "" -> negb (ToBoolean (VStr s)) = false.
Proof.
  intros Hs. destruct (negb (ToBoolean (VStr s))) eqn:E; [|done].
  by apply empty_is_falsy in E.
Qed.

Lemma login_empty_input (w : world) :
  trim (username_input w) = "" \/ password_input w = "" ->
  login net w =
    (Return tt,
     set_status_div (Some (VStr "Please enter your username and password.", StatusError)) w).
Proof.
  intros Hempty. unfold login, bind at 1 2, gets.
  destruct Hempty as [Hu|Hp].
  - apply empty_is_falsy in Hu. by rewrite Hu.
  - apply empty_is_falsy in Hp. rewrite Hp, orb_true_r. done.
Qed.

(** C5, amended.  [register] rejects a submission with an empty (trimmed)
    username, an empty password or a password shorter than 8 characters:
    it shows an error and issues no call; every other submission is sent
    to [/register].  [login] rejects a submission with an empty username
    or an empty password only: every other submission, whatever the
    length of its password, is sent to [/authenticate]. *)
Theorem credentials_validation (w : world) :
  (trim (username_input w) = "" \/ password_input w = "" ->
   register net w =
     (Return tt,
      set_status_div (Some (VStr "Please enter a username and password.", StatusError)) w)) /\
  (trim (username_input w) <> "" -> password_input w <> "" ->
   String.length (password_input w) < 8 ->
   register net w =
     (Return tt,
      set_status_div (Some (VStr "Password must be at least 8 characters long.", StatusError)) w)) /\
  (trim (username_input w) <> "" -> 8 <= String.length (password_input w) ->
   trace (snd (register net w)) =
     trace w ++ [register_request (trim (username_input w)) (password_input w)]) /\
  (trim (username_input w) = "" \/ password_input w = "" ->
   login net w =
     (Return tt,
      set_status_div (Some (VStr "Please enter your username and password.", StatusError)) w)) /\
  (trim (username_input w) <> "" -> password_input w <> "" ->
   trace (snd (login net w)) =
     trace w ++ [authenticate_request (trim (username_input w)) (password_input w)]).
Proof.
  repeat split.
  - intros Hempty. unfold register, bind at 1 2, gets. cbn [fst snd].
    destruct Hempty as [Hu|Hp].
    + apply empty_is_falsy in Hu. by rewrite Hu.
    + apply empty_is_falsy in Hp. rewrite Hp, orb_true_r. done.
  - intros Hu Hp Hshort. unfold register, bind at 1 2, gets.
    rewrite (nonempty_is_truthy _ Hu), (nonempty_is_truthy _ Hp). cbn [orb].
    apply Nat.ltb_lt in Hshort. by rewrite Hshort.
  - intros Hu Hlong. unfold register, bind at 1 2, gets.
    assert (Hp : password_input w <> "") by (intros E; rewrite E in Hlong; cbn in Hlong; lia).
    rewrite (nonempty_is_truthy _ Hu), (nonempty_is_truthy _ Hp). cbn [orb].
    apply Nat.ltb_ge in Hlong. rewrite Hlong.
    js_unfold. unfold ok_and_status_ok. by js_cases.
  - apply login_empty_input.
  - intros Hu Hp. unfold login, bind at 1 2, gets.
    rewrite (nonempty_is_truthy _ Hu), (nonempty_is_truthy _ Hp). cbn [orb].
    js_unfold. unfold ok_and_status_ok. by js_cases.
Qed.

Lemma token_grant_intro (resp : response) (fs : list (string * value)) (e : float) :
  ok resp = true -> json resp = Some (VObj fs) -> lookup_field "status" fs = VStr "ok" ->
  getTokenExpiry (lookup_field "access_token" fs) = Return e ->
  token_grant (Responded resp) =
    Some (lookup_field "access_token" fs, lookup_field "refresh_token" fs, e).
Proof.
  intros Hok Hjson Hstatus Hexp. unfold token_grant.
  by rewrite Hjson, Hok, Hstatus, Hexp.
Qed.

Lemma login_granted (w : world) (a r : value) (e : float) :
  trim (username_input w) <> "" -> password_input w <> "" ->
  token_grant (net (trace w)
                 (authenticate_request (trim (username_input w)) (password_input w))) =
    Some (a, r, e) ->
  login net w =
    (Return tt,
     set_password_input ""
       (set_logout_hidden false
          (set_status_div (Some (VStr "Authentication successful.", StatusSuccess))
             (set_chrome_local (<["auth_tokens" := token_pair a r (VNum e)]> (chrome_local w))
                (set_trace (trace w ++ [authenticate_request (trim (username_input w))
                                          (password_input w)]) w))))).
Proof.
  intros Hu Hp H.
  apply token_grant_inv in H as (resp & fs & Hn & Hj & Hok & Hs & -> & -> & He).
  unfold login, bind at 1 2, gets.
  rewrite (nonempty_is_truthy _ Hu), (nonempty_is_truthy _ Hp). cbn [orb].
  js_unfold. rewrite Hn. cbn. rewrite Hj. cbn. unfold ok_and_status_ok. rewrite Hok. cbn.
  rewrite Hs. cbn. by rewrite He.
Qed.

Lemma login_refused (w : world) :
  trim (username_input w) <> "" -> password_input w <> "" ->
  token_grant (net (trace w)
                 (authenticate_request (trim (username_input w)) (password_input w))) = None ->
  exists shown,
    login net w =
      (Return tt,
       set_status_div (Some (VStr ("Authentication failed: " +:+ shown), StatusError))
         (set_trace (trace w ++ [authenticate_request (trim (username_input w))
                                   (password_input w)]) w)).
Proof.
  intros Hu Hp H.
  unfold login, bind at 1 2, gets.
  rewrite (nonempty_is_truthy _ Hu), (nonempty_is_truthy _ Hp). cbn [orb].
  unfold token_grant in H. js_unfold. unfold ok_and_status_ok.
  destruct (net _ _) as [|resp]; cbn; [eauto|].
  destruct (json resp) as [body|]; cbn; [|eauto].
  destruct body; cbn; eauto.
  all: try (destruct (ok resp); cbn; eauto).
  destruct (strict_eq_str _ _); cbn in *; eauto.
  destruct (getTokenExpiry _); cbn; eauto. done.
Qed.

Lemma getTokenExpiry_decoded (token segment text : string) (claims : list (string * value)) :
  split "." token !! 1%nat = Some segment ->
  atob segment = Some text ->
  JSON_parse text = Some (VObj claims) ->
  getTokenExpiry (VStr token) =
    Return (PrimFloat.mul (ToNumber (lookup_field "exp" claims)) 1000).
Proof.
  intros Hseg Hatob Hparse. unfold getTokenExpiry. rewrite Hseg. cbn.
  by rewrite Hatob, Hparse.
Qed.

(** X18.  When the answer to an authenticate call is OK with the
    status ok and its access token is a string whose second dot-separated
    segment [atob] decodes to the JSON text of an object with a numeric
    [exp] claim, the client afterwards holds, under [auth_tokens], the
    pair of the answer's two tokens with the expiry [exp * 1000]. *)
Theorem login_stores_token_pair (w : world) (resp : response) (fs claims : list (string * value))
    (access segment text : string) (exp : float) :
  trim (username_input w) <> "" -> password_input w <> "" ->
  net (trace w) (authenticate_request (trim (username_input w)) (password_input w)) =
    Responded resp ->
  ok resp = true -> json resp = Some (VObj fs) -> lookup_field "status" fs = VStr "ok" ->
  lookup_field "access_token" fs = VStr access ->
  split "." access !! 1%nat = Some segment ->
  atob segment = Some text ->
  JSON_parse text = Some (VObj claims) ->
  lookup_field "exp" claims = VNum exp ->
  chrome_local (snd (login net w)) !! "auth_tokens" =
    Some (token_pair (VStr access) (lookup_field "refresh_token" fs)
            (VNum (PrimFloat.mul exp 1000))).
Proof.
  intros Hu Hp Hnet Hok Hjson Hstatus Haccess Hseg Hatob Hparse Hexp.
  pose proof (getTokenExpiry_decoded _ _ _ _ Hseg Hatob Hparse) as He.
  rewrite Hexp in He. cbn [ToNumber] in He. rewrite <- Haccess in He.
  pose proof (token_grant_intro _ _ _ Hok Hjson Hstatus He) as Hgrant.
  rewrite <- Hnet in Hgrant.
  rewrite (login_granted _ _ _ _ Hu Hp Hgrant). cbn.
  by rewrite lookup_insert_eq, Haccess.
Qed.

Lemma atob_of_undefined : atob (ToString VUndef) = None.
Proof. reflexivity. Qed.

Lemma getTokenExpiry_total (token : value) :
  (exists e, getTokenExpiry token = Return e) \/ (exists ex, getTokenExpiry token = Throw ex).
Proof. destruct (getTokenExpiry token); eauto. Qed.

(** C10, amended.  [getTokenExpiry] returns exactly for the access-token
    strings whose second dot-separated segment [atob] decodes to a JSON
    text whose value is not null (an object, but also a number, a string,
    a boolean or an array, for which the expiry is whatever the missing
    [exp] coerces to); for every other string it throws.  (The parser
    being a parameter, the statement also rules out an answer of
    undefined, which no JSON text denotes.)  When it throws,
    [storeTokens] throws the same exception and leaves the whole state as
    it was, so no pair, partial or not, is written; and [login], given an
    accepted answer carrying such a token, reports the exception as an
    authentication failure and has changed nothing but the trace and the
    message. *)
Theorem storeTokens_atomic (token : string) :
  ((exists e, getTokenExpiry (VStr token) = Return e) <->
   (exists segment text payload,
      split "." token !! 1%nat = Some segment /\ atob segment = Some text /\
      JSON_parse text = Some payload /\ payload <> VNull /\ payload <> VUndef)) /\
  (forall (ex : exn) (refresh : value) (w : world),
      getTokenExpiry (VStr token) = Throw ex ->
      storeTokens (VStr token) refresh w = (Throw ex, w)) /\
  (forall (ex : exn) (w : world) (resp : response) (fs : list (string * value)),
      trim (username_input w) <> "" -> password_input w <> "" ->
      net (trace w) (authenticate_request (trim (username_input w)) (password_input w)) =
        Responded resp ->
      ok resp = true -> json resp = Some (VObj fs) -> lookup_field "status" fs = VStr "ok" ->
      lookup_field "access_token" fs = VStr token ->
      getTokenExpiry (VStr token) = Throw ex ->
      login net w =
        (Return tt,
         set_status_div (Some (VStr ("Authentication failed: " +:+ message ex), StatusError))
           (set_trace (trace w ++ [authenticate_request (trim (username_input w))
                                     (password_input w)]) w))).
Proof.
  split; [|split].
  - unfold getTokenExpiry.
    destruct (split "." token !! 1%nat) as [segment|] eqn:Hseg.
    + cbn [ToString]. split.
      * intros [e He].
        destruct (atob segment) as [text|] eqn:Hatob; [|done].
        destruct (JSON_parse text) as [payload|] eqn:Hparse; [|done].
        exists segment, text, payload. repeat split; try done.
        all: by intros ->.
      * intros (segment' & text & payload & [= <-] & Hatob & Hparse & Hnull & Hundef).
        rewrite Hatob, Hparse. destruct payload; cbn; eauto; done.
    + rewrite atob_of_undefined. split.
      * by intros [e He].
      * by intros (segment & text & payload & Hsome & _).
  - intros ex refresh w. apply storeTokens_throws.
  - intros ex w resp fs Hu Hp Hnet Hok Hjson Hstatus Haccess Hthrow.
    unfold login, bind at 1 2, gets.
    rewrite (nonempty_is_truthy _ Hu), (nonempty_is_truthy _ Hp). cbn [orb].
    js_unfold. rewrite Hnet. cbn. rewrite Hjson. cbn. unfold ok_and_status_ok.
    rewrite Hok. cbn. rewrite Hstatus. cbn. by rewrite Haccess, Hthrow.
Qed.

(** A granted refresh replaces the stored pair by the granted one before
    the protected call is made. *)
Lemma accessProtected_refresh_granted (w : world) (access refresh expiry : value)
    (access' refresh' : value) (e : float) :
  lastError w = None ->
  chrome_local w !! "auth_tokens" = Some (token_pair access refresh expiry) ->
  PrimFloat.ltb (ToNumber expiry) (now w) = true ->
  token_grant (net (trace w) (refresh_request refresh)) = Some (access', refresh', e) ->
  exists shown,
    accessProtected net w =
      (Return tt,
       set_status_div shown
         (set_trace (trace w ++ [refresh_request refresh; protected_request access'])
            (set_chrome_local
               (<["auth_tokens" := token_pair access' refresh' (VNum e)]> (chrome_local w)) w))).
Proof.
  intros Hread Hpair Hpast Hgrant.
  pose proof (getAccessToken_expired w access refresh expiry Hread Hpair Hpast) as Hget.
  unfold bind in Hget. rewrite (refreshAccessToken_granted _ _ _ _ _ Hgrant) in Hget.
  unfold lift in Hget. cbn in Hget.
  destruct (accessProtected_with_token _ _ _ Hget) as [shown ->].
  exists shown. cbn. by rewrite <- app_assoc.
Qed.

(** A refused refresh ends the request with an error message and leaves
    everything else, the stored pair included, as it was. *)
Lemma accessProtected_refresh_refused (w : world) (access refresh expiry : value) :
  lastError w = None ->
  chrome_local w !! "auth_tokens" = Some (token_pair access refresh expiry) ->
  PrimFloat.ltb (ToNumber expiry) (now w) = true ->
  token_grant (net (trace w) (refresh_request refresh)) = None ->
  exists ex,
    accessProtected net w =
      (Return tt,
       set_status_div (Some (VStr (message ex), StatusError))
         (set_trace (trace w ++ [refresh_request refresh]) w)).
Proof.
  intros Hread Hpair Hpast Hgrant.
  pose proof (getAccessToken_expired w access refresh expiry Hread Hpair Hpast) as Hget.
  destruct (refreshAccessToken_refused _ _ Hgrant) as [ex Hrefused].
  unfold bind in Hget. rewrite Hrefused in Hget.
  exists ex. by apply accessProtected_without_token.
Qed.

(** The popup's token cache: what was stored is what is read back, and
    nothing is read after the removal. *)
Lemma popup_store_then_load (w : world) (access refresh : value) (e : float) :
  lastError w = None ->
  getTokenExpiry access = Return e ->
  fst (getStoredTokens (snd (storeTokens access refresh w))) =
    Return (token_pair access refresh (VNum e)).
Proof.
  intros Hread He. rewrite (storeTokens_stores _ _ _ _ He).
  unfold getStoredTokens. cbn. by rewrite Hread, lookup_insert_eq.
Qed.

Lemma popup_load_nothing (w : world) :
  lastError w = None ->
  chrome_local w !! "auth_tokens" = None ->
  getStoredTokens w = (Return VUndef, w).
Proof. intros Hread Hnone. unfold getStoredTokens. by rewrite Hread, Hnone. Qed.

Lemma popup_clear_then_load (w : world) :
  lastError w = None ->
  fst (getStoredTokens (snd (logout w))) = Return VUndef.
Proof.
  intros Hread. unfold getStoredTokens. js_unfold. cbn. by rewrite Hread, lookup_delete_eq.
Qed.

(** ** What a handler does to the token storage *)

Lemma getAccessToken_cases (w : world) :
  (exists ex, getAccessToken net w = (Throw ex, w)) \/
  (exists access, getAccessToken net w = (Return access, w)) \/
  (exists held,
      getAccessToken net w =
        (let* newTokens := refreshAccessToken net held in
         lift (member newTokens "access_token")) w).
Proof.
  unfold getAccessToken, getStoredTokens, bind, gets, lift, throw.
  destruct (lastError w); [eauto|].
  destruct (negb (ToBoolean _)); [eauto|].
  destruct (member _ "access_token_expiry") as [expiry|]; [|eauto].
  destruct (PrimFloat.ltb _ _).
  - destruct (member _ "refresh_token") as [held|]; [|eauto].
    right; right. by exists held.
  - destruct (member _ "access_token"); eauto.
Qed.

Lemma register_keeps_tokens (w : world) :
  chrome_local (snd (register net w)) = chrome_local w.
Proof. js_unfold. unfold ok_and_status_ok. by js_cases. Qed.

Lemma checkLoginStatus_keeps_tokens (w : world) :
  chrome_local (snd (checkLoginStatus w)) = chrome_local w.
Proof. js_unfold. by js_cases. Qed.

Lemma logout_removes_tokens (w : world) :
  chrome_local (snd (logout w)) = delete "auth_tokens" (chrome_local w).
Proof. by js_unfold. Qed.

Lemma login_replaces_tokens (w : world) :
  chrome_local (snd (login net w)) = chrome_local w \/
  exists req access refresh e,
    token_grant (net (trace w) req) = Some (access, refresh, e) /\
    chrome_local (snd (login net w)) =
      <["auth_tokens" := token_pair access refresh (VNum e)]> (chrome_local w).
Proof.
  destruct (String.eqb_spec (trim (username_input w)) "") as [Hu|Hu];
    [left; by rewrite (login_empty_input w (or_introl Hu))|].
  destruct (String.eqb_spec (password_input w) "") as [Hp|Hp];
    [left; by rewrite (login_empty_input w (or_intror Hp))|].
  destruct (token_grant (net (trace w) (authenticate_request (trim (username_input w))
                                          (password_input w))))
    as [[[access refresh] e]|] eqn:Hgrant.
  - right. exists (authenticate_request (trim (username_input w)) (password_input w)),
             access, refresh, e.
    split; [done|]. by rewrite (login_granted _ _ _ _ Hu Hp Hgrant).
  - left. destruct (login_refused _ Hu Hp Hgrant) as [shown ->]. done.
Qed.

Lemma accessProtected_replaces_tokens (w : world) :
  chrome_local (snd (accessProtected net w)) = chrome_local w \/
  exists req access refresh e,
    token_grant (net (trace w) req) = Some (access, refresh, e) /\
    chrome_local (snd (accessProtected net w)) =
      <["auth_tokens" := token_pair access refresh (VNum e)]> (chrome_local w).
Proof.
  destruct (getAccessToken_cases w) as [[ex Hget]|[[access Hget]|[held Hget]]].
  - left. by rewrite (accessProtected_without_token _ _ _ Hget).
  - left. by destruct (accessProtected_with_token _ _ _ Hget) as [shown ->].
  - unfold bind, lift in Hget.
    destruct (token_grant (net (trace w) (refresh_request held)))
      as [[[access refresh] e]|] eqn:Hgrant.
    + right. exists (refresh_request held), access, refresh, e. split; [done|].
      rewrite (refreshAccessToken_granted _ _ _ _ _ Hgrant) in Hget. cbn in Hget.
      by destruct (accessProtected_with_token _ _ _ Hget) as [shown ->].
    + left. destruct (refreshAccessToken_refused _ _ Hgrant) as [ex Hrefused].
      rewrite Hrefused in Hget.
      by rewrite (accessProtected_without_token _ _ _ Hget).
Qed.

(** Every handler leaves the token storage as it was, removes the entry
    [auth_tokens], or replaces that entry by the complete pair one answer
    granted. *)
Lemma perform_storage (a : action) (w : world) :
  chrome_local (snd (perform net a w)) = chrome_local w \/
  (a = Logout /\
   chrome_local (snd (perform net a w)) = delete "auth_tokens" (chrome_local w)) \/
  (exists req access refresh e,
      (a = Login \/ a = AccessProtected) /\
      token_grant (net (trace w) req) = Some (access, refresh, e) /\
      chrome_local (snd (perform net a w)) =
        <["auth_tokens" := token_pair access refresh (VNum e)]> (chrome_local w)).
Proof.
  destruct a; cbn [perform].
  - left. apply register_keeps_tokens.
  - destruct (login_replaces_tokens w) as [?|(req & access & refresh & e & ? & ?)];
      [by left | right; right; eauto 10].
  - right; left. split; [done | apply logout_removes_tokens].
  - destruct (accessProtected_replaces_tokens w) as [?|(req & access & refresh & e & ? & ?)];
      [by left | right; right; eauto 10].
  - left. apply checkLoginStatus_keeps_tokens.
Qed.

(** The popup writes [localStorage] under [username] only. *)
Lemma perform_localStorage (a : action) (w : world) (k : string) :
  k <> "username" ->
  localStorage (snd (perform net a w)) !! k = localStorage w !! k.
Proof.
  intros Hk. destruct a; cbn [perform].
  - js_unfold. unfold ok_and_status_ok. js_cases. by rewrite lookup_insert_ne.
  - destruct (String.eqb_spec (trim (username_input w)) "") as [Hu|Hu];
      [by rewrite (login_empty_input w (or_introl Hu))|].
    destruct (String.eqb_spec (password_input w) "") as [Hp|Hp];
      [by rewrite (login_empty_input w (or_intror Hp))|].
    destruct (token_grant (net (trace w) (authenticate_request (trim (username_input w))
                                            (password_input w))))
      as [[[access refresh] e]|] eqn:Hgrant.
    + by rewrite (login_granted _ _ _ _ Hu Hp Hgrant).
    + by destruct (login_refused _ Hu Hp Hgrant) as [shown ->].
  - js_unfold. cbn. by rewrite lookup_delete_ne.
  - destruct (getAccessToken_cases w) as [[ex Hget]|[[access Hget]|[held Hget]]].
    + by rewrite (accessProtected_without_token _ _ _ Hget).
    + by destruct (accessProtected_with_token _ _ _ Hget) as [shown ->].
    + unfold bind, lift in Hget.
      destruct (token_grant (net (trace w) (refresh_request held)))
        as [[[access refresh] e]|] eqn:Hgrant.
      * rewrite (refreshAccessToken_granted _ _ _ _ _ Hgrant) in Hget. cbn in Hget.
        by destruct (accessProtected_with_token _ _ _ Hget) as [shown ->].
      * destruct (refreshAccessToken_refused _ _ Hgrant) as [ex Hrefused].
        rewrite Hrefused in Hget.
        by rewrite (accessProtected_without_token _ _ _ Hget).
  - js_unfold. by js_cases.
Qed.

Lemma token_grant_expiry (answer : fetch_result) (access refresh : value) (e : float) :
  token_grant answer = Some (access, refresh, e) -> getTokenExpiry access = Return e.
Proof.
  intros H. by apply token_grant_inv in H as (resp & fs & _ & _ & _ & _ & _ & _ & He).
Qed.

Lemma step_keeps_one_pair (w w' : world) :
  step net w w' ->
  (forall k, k <> "auth_tokens" -> chrome_local w' !! k = chrome_local w !! k) /\
  (forall k, k <> "username" -> localStorage w' !! k = localStorage w !! k) /\
  (complete_pair_or_absent (chrome_local w !! "auth_tokens") ->
   complete_pair_or_absent (chrome_local w' !! "auth_tokens")).
Proof.
  intros [a w0|w0 failing username password time]; [|done].
  assert (Hlocal : forall k, k <> "username" ->
                     localStorage (snd (perform net a w0)) !! k = localStorage w0 !! k)
    by (intros k Hk; by apply perform_localStorage).
  destruct (perform_storage a w0)
    as [Hsame|[[_ Hgone]|(req & access & refresh & e & _ & Hgrant & Hset)]].
  - by rewrite Hsame.
  - rewrite Hgone. repeat split; [|done|].
    + intros k Hk. by rewrite lookup_delete_ne.
    + intros _. left. apply lookup_delete_eq.
  - rewrite Hset. repeat split; [|done|].
    + intros k Hk. by rewrite lookup_insert_ne.
    + intros _. right. exists access, refresh, e.
      split; [apply lookup_insert_eq | by apply token_grant_expiry in Hgrant].
Qed.

Lemma session_keeps_one_pair (w w' : world) :
  rtc (step net) w w' ->
  (forall k, k <> "auth_tokens" -> chrome_local w' !! k = chrome_local w !! k) /\
  (forall k, k <> "username" -> localStorage w' !! k = localStorage w !! k) /\
  (complete_pair_or_absent (chrome_local w !! "auth_tokens") ->
   complete_pair_or_absent (chrome_local w' !! "auth_tokens")).
Proof.
  induction 1 as [w|w w1 w' Hstep _ (IHother & IHlocal & IHentry)]; [done|].
  destruct (step_keeps_one_pair _ _ Hstep) as (Hother & Hlocal & Hentry).
  repeat split.
  - intros k Hk. by rewrite IHother, Hother.
  - intros k Hk. by rewrite IHlocal, Hlocal.
  - auto.
Qed.

End PopupFacts.

(** * The web page: what its functions do *)

Section WebFacts.
Context {P : Platform} (net : network).
Import Web.

Ltac web_unfold :=
  unfold authenticatedFetch, login, register, logout, refreshAccessToken,
         storeTokens, loadTokens, clearTokens, isAuthenticated,
         showSection, hideSection, alert, console_error, fetch, response_json,
         try_catch, bind, ret, throw, lift, modify, gets.

Lemma assign_assign {A} (k : string) (v v' : A) (fs : list (string * A)) :
  assign k v' (assign k v fs) = assign k v' fs.
Proof.
  induction fs as [|[k0 v0] fs IH]; cbn.
  - by rewrite String.eqb_refl.
  - destruct (String.eqb k0 k) eqn:E; cbn.
    + by rewrite String.eqb_refl.
    + by rewrite E, IH.
Qed.

Lemma clearTokens_clears (p : page) : clearTokens p = (Return tt, cleared p).
Proof. by web_unfold. Qed.

Lemma storeTokens_stores_both (access refresh : value) (p : page) :
  storeTokens access refresh p = (Return tt, stored access refresh p).
Proof. by web_unfold. Qed.

Lemma refreshAccessToken_nothing_held (p : page) :
  ToBoolean (refreshToken p) = false ->
  refreshAccessToken net p = (Return false, p).
Proof. intros Hheld. web_unfold. by rewrite Hheld. Qed.

Lemma refreshAccessToken_web_granted (p : page) (access refresh : value) :
  ToBoolean (refreshToken p) = true ->
  refresh_grant (net (trace p) (refresh_request (refreshToken p))) = Some (access, refresh) ->
  refreshAccessToken net p =
    (Return true,
     stored access refresh (set_trace (trace p ++ [refresh_request (refreshToken p)]) p)).
Proof.
  intros Hheld Hgrant. unfold refresh_grant in Hgrant. web_unfold. rewrite Hheld. cbn.
  destruct (net _ _) as [|resp]; [done|]. cbn.
  destruct (ok resp); [|done].
  destruct (json resp) as [data|]; [|done]. cbn.
  destruct (member data "access_token") as [a|]; [|done].
  destruct (member data "refresh_token") as [r|]; [|done].
  by injection Hgrant as <- <-.
Qed.

Lemma refreshAccessToken_web_refused (p : page) :
  ToBoolean (refreshToken p) = true ->
  refresh_grant (net (trace p) (refresh_request (refreshToken p))) = None ->
  exists log,
    refreshAccessToken net p =
      (Return false,
       cleared (set_console log (set_trace (trace p ++ [refresh_request (refreshToken p)]) p))).
Proof.
  intros Hheld Hgrant. unfold refresh_grant in Hgrant. web_unfold. rewrite Hheld. cbn.
  destruct (net _ _) as [|resp]; cbn; [by eexists|].
  destruct (ok resp); cbn; [|by exists (console p)].
  destruct (json resp) as [data|]; cbn; [|by eexists].
  destruct (member data "access_token") as [a|]; cbn; [|by eexists].
  destruct (member data "refresh_token") as [r|]; cbn; [done|by eexists].
Qed.

Lemma lookup_header_assign (k v : string) (hs : list (string * string)) :
  lookup_header k (assign k v hs) = Some v.
Proof.
  unfold lookup_header. induction hs as [|[k0 v0] hs IH]; cbn.
  - by rewrite String.eqb_refl.
  - destruct (String.eqb k0 k) eqn:E; cbn.
    + by rewrite String.eqb_refl.
    + by rewrite E.
Qed.

Lemma logout_logs_out (p : page) :
  exists p', logout p = (Return tt, p') /\ logged_out p' /\
             trace p' = trace p /\ alerts p' = alerts p.
Proof.
  eexists. split; [by web_unfold|]. cbn. unfold logged_out. cbn.
  repeat split; try done.
  - rewrite lookup_delete_ne by done. rewrite lookup_delete_ne by done. apply lookup_delete_eq.
  - rewrite lookup_delete_ne by done. apply lookup_delete_eq.
  - apply lookup_delete_eq.
Qed.

(** What [authenticatedFetch] does once its first call was answered 401
    and the refresh did not succeed. *)
Lemma session_expired (p : page) :
  exists p',
    (alert "Session expired. Please log in again." ;; logout ;;
     throw (Error "Authentication required")) p =
      (@Throw response (Error "Authentication required"), p') /\
    logged_out p' /\ trace p' = trace p /\
    alerts p' = alerts p ++ ["Session expired. Please log in again."].
Proof.
  destruct (logout_logs_out (set_alerts (alerts p ++ ["Session expired. Please log in again."]) p))
    as (p' & Hlogout & Hout & Htrace & Halerts).
  exists p'. split; [|done].
  unfold bind at 1, alert, modify. unfold bind at 1. rewrite Hlogout. done.
Qed.

(** C2, amended.  Every call [authenticatedFetch] makes carries the header
    [Authorization: Bearer <access token>], the token being the one held
    when the call is made.  When the first answer is not a 401 nothing else
    happens.  When it is a 401 the wrapper attempts one refresh: with no
    refresh token held the attempt fails without a call; with one held it
    is exactly one call to the refresh endpoint.  A granted refresh is
    followed by exactly one retry of the original request with the new
    access token, whose answer is returned whatever its status.  A failed
    refresh is followed by no retry: the user is alerted, logged out, and
    the error [Authentication required] is thrown. *)
Theorem authenticatedFetch_refresh_once (p : page) (target : string) (o : options) :
  (forall token,
      lookup_header "Authorization" (headers (authorized_request target o token)) =
        Some ("Bearer " +:+ ToString token)) /\
  (net (trace p) (authorized_request target o (accessToken p)) = Failed ->
   authenticatedFetch net target o p =
     (Throw (Builtin NetworkError),
      set_trace (trace p ++ [authorized_request target o (accessToken p)]) p)) /\
  (forall r,
      net (trace p) (authorized_request target o (accessToken p)) = Responded r ->
      status r <> 401%Z ->
      authenticatedFetch net target o p =
        (Return r, set_trace (trace p ++ [authorized_request target o (accessToken p)]) p)) /\
  (forall r,
      net (trace p) (authorized_request target o (accessToken p)) = Responded r ->
      status r = 401%Z ->
      ToBoolean (refreshToken p) = false ->
      exists p',
        authenticatedFetch net target o p = (Throw (Error "Authentication required"), p') /\
        trace p' = trace p ++ [authorized_request target o (accessToken p)] /\
        logged_out p' /\
        alerts p' = alerts p ++ ["Session expired. Please log in again."]) /\
  (forall r access refresh,
      net (trace p) (authorized_request target o (accessToken p)) = Responded r ->
      status r = 401%Z ->
      ToBoolean (refreshToken p) = true ->
      refresh_grant (net (trace p ++ [authorized_request target o (accessToken p)])
                       (refresh_request (refreshToken p))) = Some (access, refresh) ->
      trace (snd (authenticatedFetch net target o p)) =
        trace p ++ [authorized_request target o (accessToken p);
                    refresh_request (refreshToken p);
                    authorized_request target o access] /\
      fst (authenticatedFetch net target o p) =
        match net (trace p ++ [authorized_request target o (accessToken p);
                               refresh_request (refreshToken p)])
                  (authorized_request target o access) with
        | Responded r' => Return r'
        | Failed => Throw (Builtin NetworkError)
        end /\
      accessToken (snd (authenticatedFetch net target o p)) = access /\
      refreshToken (snd (authenticatedFetch net target o p)) = refresh) /\
  (forall r,
      net (trace p) (authorized_request target o (accessToken p)) = Responded r ->
      status r = 401%Z ->
      ToBoolean (refreshToken p) = true ->
      refresh_grant (net (trace p ++ [authorized_request target o (accessToken p)])
                       (refresh_request (refreshToken p))) = None ->
      exists p',
        authenticatedFetch net target o p = (Throw (Error "Authentication required"), p') /\
        trace p' = trace p ++ [authorized_request target o (accessToken p);
                               refresh_request (refreshToken p)] /\
        logged_out p' /\
        alerts p' = alerts p ++ ["Session expired. Please log in again."]).
Proof.
  split; [|split; [|split; [|split; [|split]]]].
  - intros token. apply lookup_header_assign.
  - intros Hnet. unfold authenticatedFetch, bind at 1 2, gets, fetch.
    fold (authorized_request target o (accessToken p)). by rewrite Hnet.
  - intros r Hnet Hstatus. unfold authenticatedFetch, bind at 1 2, gets, fetch.
    fold (authorized_request target o (accessToken p)). rewrite Hnet.
    apply Z.eqb_neq in Hstatus. by rewrite Hstatus.
  - intros r Hnet Hstatus Hheld. unfold authenticatedFetch, bind at 1 2, gets, fetch.
    fold (authorized_request target o (accessToken p)). rewrite Hnet.
    apply Z.eqb_eq in Hstatus. rewrite Hstatus. unfold bind at 1.
    rewrite refreshAccessToken_nothing_held by done.
    destruct (session_expired (set_trace (trace p ++ [authorized_request target o (accessToken p)]) p))
      as (p' & Hrun & Hout & Htrace & Halerts).
    exists p'. by rewrite Hrun.
  - intros r access refresh Hnet Hstatus Hheld Hgrant.
    assert (Hrun : authenticatedFetch net target o p =
                     (match net (trace p ++ [authorized_request target o (accessToken p);
                                             refresh_request (refreshToken p)])
                                (authorized_request target o access) with
                      | Responded r' => Return r'
                      | Failed => Throw (Builtin NetworkError)
                      end,
                      set_trace (trace p ++ [authorized_request target o (accessToken p);
                                             refresh_request (refreshToken p);
                                             authorized_request target o access])
                                (stored access refresh p))).
    { unfold authenticatedFetch, bind at 1 2, gets, fetch.
      fold (authorized_request target o (accessToken p)). rewrite Hnet.
      apply Z.eqb_eq in Hstatus. rewrite Hstatus. unfold bind at 1.
      rewrite (refreshAccessToken_web_granted
                 (set_trace (trace p ++ [authorized_request target o (accessToken p)]) p)
                 access refresh Hheld Hgrant).
      unfold bind, gets. cbn. rewrite assign_assign.
      fold (authorized_request target o access).
      rewrite <- !app_assoc. cbn.
      by destruct (net _ (authorized_request target o access)). }
    by rewrite Hrun.
  - intros r Hnet Hstatus Hheld Hgrant.
    unfold authenticatedFetch, bind at 1 2, gets, fetch.
    fold (authorized_request target o (accessToken p)). rewrite Hnet.
    apply Z.eqb_eq in Hstatus. rewrite Hstatus. unfold bind at 1.
    destruct (refreshAccessToken_web_refused
                (set_trace (trace p ++ [authorized_request target o (accessToken p)]) p)
                Hheld Hgrant) as [log ->].
    set (q := cleared _).
    destruct (session_expired q) as (p' & Hrun & Hout & Htrace & Halerts).
    exists p'. rewrite Hrun. split; [done|]. split; [|done].
    rewrite Htrace. cbn. by rewrite <- app_assoc.
Qed.

(** The page's token cache. *)
Lemma web_store_then_load (p : page) (access refresh : string) :
  accessToken (snd (loadTokens (snd (storeTokens (VStr access) (VStr refresh) p)))) = VStr access /\
  refreshToken (snd (loadTokens (snd (storeTokens (VStr access) (VStr refresh) p)))) = VStr refresh.
Proof.
  rewrite storeTokens_stores_both. unfold loadTokens, modify, getItem_or_empty. cbn.
  rewrite lookup_insert_ne by done. by rewrite !lookup_insert_eq.
Qed.

Lemma web_load_nothing (p : page) :
  localStorage p !! "accessToken" = None -> localStorage p !! "refreshToken" = None ->
  accessToken (snd (loadTokens p)) = VStr "" /\ refreshToken (snd (loadTokens p)) = VStr "".
Proof.
  intros Ha Hr. unfold loadTokens, modify, getItem_or_empty. cbn. by rewrite Ha, Hr.
Qed.

Lemma web_clear_then_load (p : page) :
  accessToken (snd (loadTokens (snd (clearTokens p)))) = VStr "" /\
  refreshToken (snd (loadTokens (snd (clearTokens p)))) = VStr "".
Proof.
  rewrite clearTokens_clears. apply web_load_nothing; cbn.
  - rewrite lookup_delete_ne by done. apply lookup_delete_eq.
  - apply lookup_delete_eq.
Qed.

End WebFacts.

(** * The two clients side by side *)

Section BothClients.
Context {P : Platform} (net : network).

(** C7, amended.  A refresh is not granted, in the extension, when the
    call fails, the answer is not OK, its body cannot be read or its
    status is not ok; in the web page, when the call fails, the answer is
    not OK or its body cannot be read.  In the extension a refresh that
    is not granted throws after its one call; the request that needed it
    ends with an error message, and nothing else changes: the stored
    token pair stays, and so does the logout button.  In the web page a
    refresh that is not granted returns false after its one call with
    both tokens cleared, in the script and in [localStorage], so that the
    page no longer counts as authenticated.  Neither client retries the
    refresh. *)
Theorem refresh_failure :
  (Popup.token_grant Failed = None /\
   (forall r, ok r = false -> Popup.token_grant (Responded r) = None) /\
   (forall r, json r = None -> Popup.token_grant (Responded r) = None) /\
   (forall r fs, json r = Some (VObj fs) ->
                 strict_eq_str (lookup_field "status" fs) "ok" = false ->
                 Popup.token_grant (Responded r) = None)) /\
  (Web.refresh_grant Failed = None /\
   (forall r, ok r = false -> Web.refresh_grant (Responded r) = None) /\
   (forall r, json r = None -> Web.refresh_grant (Responded r) = None)) /\
  (forall (w : Popup.world) (held : value),
      Popup.token_grant (net (Popup.trace w) (Popup.refresh_request held)) = None ->
      exists ex,
        Popup.refreshAccessToken net held w =
          (Throw ex, Popup.set_trace (Popup.trace w ++ [Popup.refresh_request held]) w)) /\
  (forall (w : Popup.world) (access refresh expiry : value),
      Popup.lastError w = None ->
      Popup.chrome_local w !! "auth_tokens" = Some (Popup.token_pair access refresh expiry) ->
      PrimFloat.ltb (ToNumber expiry) (Popup.now w) = true ->
      Popup.token_grant (net (Popup.trace w) (Popup.refresh_request refresh)) = None ->
      exists ex,
        Popup.accessProtected net w =
          (Return tt,
           Popup.set_status_div (Some (VStr (message ex), Popup.StatusError))
             (Popup.set_trace (Popup.trace w ++ [Popup.refresh_request refresh]) w))) /\
  (forall (p : Web.page),
      ToBoolean (Web.refreshToken p) = true ->
      Web.refresh_grant (net (Web.trace p) (Web.refresh_request (Web.refreshToken p))) = None ->
      exists p',
        Web.refreshAccessToken net p = (Return false, p') /\
        Web.trace p' = Web.trace p ++ [Web.refresh_request (Web.refreshToken p)] /\
        Web.accessToken p' = VStr "" /\ Web.refreshToken p' = VStr "" /\
        Web.localStorage p' !! "accessToken" = None /\
        Web.localStorage p' !! "refreshToken" = None /\
        fst (Web.isAuthenticated p') = Return false).
Proof.
  split; [|split; [|split; [|split]]].
  - repeat split.
    + intros r Hok. unfold Popup.token_grant. rewrite Hok. by repeat case_match.
    + intros r Hjson. unfold Popup.token_grant. by rewrite Hjson.
    + intros r fs Hjson Hstatus. unfold Popup.token_grant.
      by rewrite Hjson, Hstatus, andb_false_r.
  - repeat split.
    + intros r Hok. unfold Web.refresh_grant. by rewrite Hok.
    + intros r Hjson. unfold Web.refresh_grant. rewrite Hjson. by destruct (ok r).
  - intros w held. apply refreshAccessToken_refused.
  - intros w access refresh expiry. apply accessProtected_refresh_refused.
  - intros p Hheld Hgrant.
    destruct (refreshAccessToken_web_refused net p Hheld Hgrant) as [log ->].
    eexists. split; [done|]. cbn. repeat split.
    + rewrite lookup_delete_ne by done. apply lookup_delete_eq.
    + apply lookup_delete_eq.
Qed.

(** C8.  The extension keeps its token pair under the one key
    [auth_tokens] and never stores part of a pair.  Over any session -
    handlers run in any order, with any server, the user typing and time
    passing in between - every other key of [chrome.storage.local] keeps
    its value, [localStorage] changes under [username] only, and an
    entry that was absent or a complete pair (both
    tokens, with the expiry derived from that access token) is again
    absent or a complete pair.  Every handler leaves the storage as it
    was, deletes the entry (logout), or replaces the entry by the two
    tokens of one granted answer together (login, refresh): a granted
    login and a granted refresh do replace it so.  The web page's
    [clearTokens] likewise removes both tokens together. *)
Theorem one_pair_wholesale :
  (forall (w w' : Popup.world),
      rtc (Popup.step net) w w' ->
      (forall k, k <> "auth_tokens" ->
                 Popup.chrome_local w' !! k = Popup.chrome_local w !! k) /\
      (forall k, k <> "username" ->
                 Popup.localStorage w' !! k = Popup.localStorage w !! k) /\
      (Popup.complete_pair_or_absent (Popup.chrome_local w !! "auth_tokens") ->
       Popup.complete_pair_or_absent (Popup.chrome_local w' !! "auth_tokens"))) /\
  (forall (a : Popup.action) (w : Popup.world),
      Popup.chrome_local (snd (Popup.perform net a w)) = Popup.chrome_local w \/
      (a = Popup.Logout /\
       Popup.chrome_local (snd (Popup.perform net a w)) =
         delete "auth_tokens" (Popup.chrome_local w)) \/
      (exists req access refresh e,
          (a = Popup.Login \/ a = Popup.AccessProtected) /\
          Popup.token_grant (net (Popup.trace w) req) = Some (access, refresh, e) /\
          Popup.chrome_local (snd (Popup.perform net a w)) =
            <["auth_tokens" := Popup.token_pair access refresh (VNum e)]>
              (Popup.chrome_local w))) /\
  (forall (w : Popup.world) (access refresh : value) (e : float),
      trim (Popup.username_input w) <> "" -> Popup.password_input w <> "" ->
      Popup.token_grant
        (net (Popup.trace w)
           (Popup.authenticate_request (trim (Popup.username_input w))
              (Popup.password_input w))) = Some (access, refresh, e) ->
      Popup.chrome_local (snd (Popup.login net w)) =
        <["auth_tokens" := Popup.token_pair access refresh (VNum e)]> (Popup.chrome_local w)) /\
  (forall (w : Popup.world) (access refresh expiry access' refresh' : value) (e : float),
      Popup.lastError w = None ->
      Popup.chrome_local w !! "auth_tokens" = Some (Popup.token_pair access refresh expiry) ->
      PrimFloat.ltb (ToNumber expiry) (Popup.now w) = true ->
      Popup.token_grant (net (Popup.trace w) (Popup.refresh_request refresh)) =
        Some (access', refresh', e) ->
      Popup.chrome_local (snd (Popup.accessProtected net w)) =
        <["auth_tokens" := Popup.token_pair access' refresh' (VNum e)]> (Popup.chrome_local w)) /\
  (forall (w : Popup.world),
      Popup.chrome_local (snd (Popup.logout w)) = delete "auth_tokens" (Popup.chrome_local w)) /\
  (forall (p : Web.page),
      Web.accessToken (snd (Web.clearTokens p)) = VStr "" /\
      Web.refreshToken (snd (Web.clearTokens p)) = VStr "" /\
      Web.localStorage (snd (Web.clearTokens p)) =
        delete "refreshToken" (delete "accessToken" (Web.localStorage p))).
Proof.
  repeat apply conj.
  - intros w w'. apply session_keeps_one_pair.
  - apply perform_storage.
  - intros w access refresh e Hu Hp Hgrant. by rewrite (login_granted net _ _ _ _ Hu Hp Hgrant).
  - intros w access refresh expiry access' refresh' e Hread Hpair Hpast Hgrant.
    by destruct (accessProtected_refresh_granted net _ _ _ _ _ _ _ Hread Hpair Hpast Hgrant)
      as [shown ->].
  - apply logout_removes_tokens.
  - intros p. by rewrite clearTokens_clears.
Qed.

(** C9, amended.  The extension's cache: [storeTokens] persists the pair
    together with the expiry derived from the access token whenever that
    expiry can be derived, and otherwise throws and persists nothing;
    [getStoredTokens] returns the stored pair, or undefined when nothing
    is stored; after the removal done by logout it returns undefined.  The
    web page's cache: [storeTokens] persists the two tokens and no expiry;
    [loadTokens] brings back the stored strings, or two empty strings when
    nothing is stored; after [clearTokens] it brings back two empty
    strings.  The extension's reads are those that succeed
    ([chrome.runtime.lastError] unset). *)
Theorem token_cache_contract :
  (forall (w : Popup.world) (access refresh : value) (e : float),
      Popup.lastError w = None ->
      Popup.getTokenExpiry access = Return e ->
      fst (Popup.getStoredTokens (snd (Popup.storeTokens access refresh w))) =
        Return (Popup.token_pair access refresh (VNum e))) /\
  (forall (w : Popup.world) (access refresh : value) (ex : exn),
      Popup.getTokenExpiry access = Throw ex ->
      Popup.storeTokens access refresh w = (Throw ex, w)) /\
  (forall (w : Popup.world),
      Popup.lastError w = None ->
      Popup.chrome_local w !! "auth_tokens" = None ->
      Popup.getStoredTokens w = (Return VUndef, w)) /\
  (forall (w : Popup.world),
      Popup.lastError w = None ->
      fst (Popup.getStoredTokens (snd (Popup.logout w))) = Return VUndef) /\
  (forall (p : Web.page) (access refresh : value),
      Web.localStorage (snd (Web.storeTokens access refresh p)) =
        <["refreshToken" := ToString refresh]>
          (<["accessToken" := ToString access]> (Web.localStorage p))) /\
  (forall (p : Web.page) (access refresh : string),
      Web.accessToken (snd (Web.loadTokens (snd (Web.storeTokens (VStr access) (VStr refresh) p)))) =
        VStr access /\
      Web.refreshToken (snd (Web.loadTokens (snd (Web.storeTokens (VStr access) (VStr refresh) p)))) =
        VStr refresh) /\
  (forall (p : Web.page),
      Web.localStorage p !! "accessToken" = None ->
      Web.localStorage p !! "refreshToken" = None ->
      Web.accessToken (snd (Web.loadTokens p)) = VStr "" /\
      Web.refreshToken (snd (Web.loadTokens p)) = VStr "") /\
  (forall (p : Web.page),
      Web.accessToken (snd (Web.loadTokens (snd (Web.clearTokens p)))) = VStr "" /\
      Web.refreshToken (snd (Web.loadTokens (snd (Web.clearTokens p)))) = VStr "").
Proof.
  repeat apply conj.
  - apply popup_store_then_load.
  - intros w access refresh ex. apply storeTokens_throws.
  - apply popup_load_nothing.
  - apply popup_clear_then_load.
  - intros p access refresh. by rewrite storeTokens_stores_both.
  - apply web_store_then_load.
  - apply web_load_nothing.
  - apply web_clear_then_load.
Qed.

End BothClients.

(** * The theorems at work on concrete sessions *)

(** The hypotheses of C6 hold for a logged-in user whose token has not
    expired yet, and the single call is the one to [/protected]. *)
Lemma unexpired_token_single_call_witness :
  Popup.lastError (Sample.logged_in 1699999000000) = None /\
  Popup.chrome_local (Sample.logged_in 1699999000000) !! "auth_tokens" =
    Some (Popup.token_pair (VStr Sample.access_old) (VStr Sample.refresh_old) (VNum 1700000000000)) /\
  PrimFloat.ltb (ToNumber (P := Sample.platform) (VNum 1700000000000))
                (Popup.now (Sample.logged_in 1699999000000)) = false /\
  Popup.trace (snd (Popup.accessProtected (P := Sample.platform) Sample.accepting
                      (Sample.logged_in 1699999000000))) =
    [Popup.protected_request (P := Sample.platform) (VStr Sample.access_old)].
Proof.
  split; [reflexivity | split; [reflexivity | split; [reflexivity |]]].
  apply (unexpired_token_single_call (P := Sample.platform) Sample.accepting
           (Sample.logged_in 1699999000000)
           (VStr Sample.access_old) (VStr Sample.refresh_old) (VNum 1700000000000));
    reflexivity.
Defined.

(** With a granted refresh the two calls of C1 are issued, in this order. *)
Lemma expired_token_refresh_then_call_witness :
  Popup.lastError (Sample.logged_in 1700000500000) = None /\
  Popup.chrome_local (Sample.logged_in 1700000500000) !! "auth_tokens" =
    Some (Popup.token_pair (VStr Sample.access_old) (VStr Sample.refresh_old) (VNum 1700000000000)) /\
  PrimFloat.ltb (ToNumber (P := Sample.platform) (VNum 1700000000000))
                (Popup.now (Sample.logged_in 1700000500000)) = true /\
  Popup.trace (snd (Popup.accessProtected (P := Sample.platform) Sample.accepting
                      (Sample.logged_in 1700000500000))) =
    [Popup.refresh_request (VStr Sample.refresh_old);
     Popup.protected_request (P := Sample.platform) (VStr Sample.access_new)].
Proof.
  split; [reflexivity | split; [reflexivity | split; [reflexivity |]]].
  apply (expired_token_refresh_then_call (P := Sample.platform) Sample.accepting
           (Sample.logged_in 1700000500000)
           (VStr Sample.access_old) (VStr Sample.refresh_old) (VNum 1700000000000));
    reflexivity.
Defined.

(** C1 as stated fails when the server refuses the refresh: the token pair
    is cached, its expiry is in the past, and the only call issued is the
    one to [/refresh]; no call to [/protected] follows. *)
Lemma expired_token_refresh_refused :
  Popup.lastError (Sample.logged_in 1700000500000) = None /\
  Popup.chrome_local (Sample.logged_in 1700000500000) !! "auth_tokens" =
    Some (Popup.token_pair (VStr Sample.access_old) (VStr Sample.refresh_old) (VNum 1700000000000)) /\
  PrimFloat.ltb (ToNumber (P := Sample.platform) (VNum 1700000000000))
                (Popup.now (Sample.logged_in 1700000500000)) = true /\
  Popup.trace (snd (Popup.accessProtected (P := Sample.platform) Sample.refusing
                      (Sample.logged_in 1700000500000))) =
    [Popup.refresh_request (VStr Sample.refresh_old)] /\
  Popup.status_div (snd (Popup.accessProtected (P := Sample.platform) Sample.refusing
                           (Sample.logged_in 1700000500000))) =
    Some (VStr "Failed to refresh token: undefined", Popup.StatusError).
Proof. repeat split; reflexivity. Qed.

(** C2 as stated fails for a visitor who holds no refresh token: the call
    is answered 401, and the wrapper throws without any call to the
    refresh endpoint, the trace holding the one original call. *)
Lemma authenticatedFetch_no_refresh_call :
  Sample.refusing [] (Web.authorized_request (P := Sample.platform)
                        (Web.BASE_URL +:+ "/protected") Sample.plain_get (VStr "")) =
    Responded (mkResponse 401 (Some (VObj [("detail", VStr "Invalid credentials.")]))) /\
  Web.authenticatedFetch (P := Sample.platform) Sample.refusing
      (Web.BASE_URL +:+ "/protected") Sample.plain_get Sample.visitor =
    (Throw (Error "Authentication required"),
     Web.mkPage (VStr "") (VStr "") ∅ ["Session expired. Please log in again."] [] false true
       [Web.authorized_request (P := Sample.platform)
          (Web.BASE_URL +:+ "/protected") Sample.plain_get (VStr "")]).
Proof. split; reflexivity. Qed.

(** C2 at work: the first call of a logged-in user is answered 401, the
    refresh is granted, and the retry carries the new access token. *)
Lemma authenticatedFetch_refresh_once_witness :
  Web.trace (snd (Web.authenticatedFetch (P := Sample.platform) Sample.expired_once
                    (Web.BASE_URL +:+ "/protected") Sample.plain_get Sample.member_page)) =
    [Web.authorized_request (P := Sample.platform)
       (Web.BASE_URL +:+ "/protected") Sample.plain_get (VStr Sample.access_old);
     Web.refresh_request (VStr Sample.refresh_old);
     Web.authorized_request (P := Sample.platform)
       (Web.BASE_URL +:+ "/protected") Sample.plain_get (VStr Sample.access_new)].
Proof.
  apply (proj1 (proj2 (proj2 (proj2 (proj2
           (authenticatedFetch_refresh_once (P := Sample.platform) Sample.expired_once
              Sample.member_page (Web.BASE_URL +:+ "/protected") Sample.plain_get)))))
           (mkResponse 401 (Some (VObj [("detail", VStr "Access token expired.")])))
           (VStr Sample.access_new) (VStr Sample.refresh_new));
    reflexivity.
Defined.

(** An accepted answer whose access token is no JWT, having no second
    segment: the answer is OK with the status ok, and afterwards nothing
    is stored and an authentication failure is shown. *)
Lemma login_opaque_token_not_stored :
  Sample.opaque [] (Popup.authenticate_request "alice" "correct horse") =
    Responded (mkResponse 200 (Some (VObj [("status", VStr "ok");
                                           ("access_token", VStr "b3BhcXVl");
                                           ("refresh_token", VStr "cmVmcmVzaA")]))) /\
  Popup.chrome_local (snd (Popup.login (P := Sample.platform) Sample.opaque
                             (Sample.logged_out " alice" "correct horse"))) !! "auth_tokens" = None /\
  Popup.status_div (snd (Popup.login (P := Sample.platform) Sample.opaque
                           (Sample.logged_out " alice" "correct horse"))) =
    Some (VStr ("Authentication failed: " +:+
                message (P := Sample.platform) (Builtin InvalidCharacterError)),
          Popup.StatusError).
Proof. repeat split; reflexivity. Qed.

(** X18 at work: a login accepted with a JWT stores both tokens and the
    expiry 1700000900 * 1000. *)
Lemma login_stores_token_pair_witness :
  trim (Popup.username_input (Sample.logged_out " alice" "correct horse")) <> "" /\
  Popup.password_input (Sample.logged_out " alice" "correct horse") <> "" /\
  Popup.chrome_local (snd (Popup.login (P := Sample.platform) Sample.accepting
                             (Sample.logged_out " alice" "correct horse"))) !! "auth_tokens" =
    Some (Popup.token_pair (VStr Sample.access_new) (VStr Sample.refresh_new)
            (VNum 1700000900000)).
Proof.
  split; [done | split; [done |]].
  eapply (login_stores_token_pair (P := Sample.platform) Sample.accepting
            (Sample.logged_out " alice" "correct horse")
            (mkResponse 200 (Some (VObj [("status", VStr "ok");
                                         ("access_token", VStr Sample.access_new);
                                         ("refresh_token", VStr Sample.refresh_new)])))
            [("status", VStr "ok"); ("access_token", VStr Sample.access_new);
             ("refresh_token", VStr Sample.refresh_new)]
            [("sub", VStr "alice"); ("exp", VNum 1700000900)]
            Sample.access_new _ _ 1700000900%float);
    try reflexivity; done.
Defined.

(** C3, on the input where the code fails it.  The user [~] logs in.  The
    answer is OK with the status ok and carries the access token the API
    issues for that user; the token's second segment is the base64url of
    claims with [exp] 1700000900 (written with [+] for its [-] it is
    base64, and decodes to those claims).  [getTokenExpiry] hands the
    segment to [atob] as it is; [atob] refuses the [-]; and after the
    login no token pair is stored, and a failure is shown. *)
Theorem login_base64url_jwt_not_stored :
  Sample.accepting_tilde [] (Popup.authenticate_request "~" "correct horse") =
    Responded (mkResponse 200 (Some (VObj [("status", VStr "ok");
                                           ("access_token", VStr Sample.access_tilde);
                                           ("refresh_token", VStr Sample.refresh_new)]))) /\
  split "." Sample.access_tilde !! 1%nat =
    Some "eyJzdWIiOiJ-IiwiaWF0IjoxNzAwMDAwMDAwLCJleHAiOjE3MDAwMDA5MDB9" /\
  atob "eyJzdWIiOiJ+IiwiaWF0IjoxNzAwMDAwMDAwLCJleHAiOjE3MDAwMDA5MDB9"
    ≫= JSON_parse (Platform := Sample.platform) =
    Some (VObj [("sub", VStr "~"); ("iat", VNum 1700000000); ("exp", VNum 1700000900)]) /\
  Popup.getTokenExpiry (P := Sample.platform) (VStr Sample.access_tilde) =
    Throw (Builtin InvalidCharacterError) /\
  Popup.trace (snd (Popup.login (P := Sample.platform) Sample.accepting_tilde
                      (Sample.logged_out "~" "correct horse"))) =
    [Popup.authenticate_request "~" "correct horse"] /\
  Popup.chrome_local (snd (Popup.login (P := Sample.platform) Sample.accepting_tilde
                             (Sample.logged_out "~" "correct horse"))) !! "auth_tokens" = None /\
  Popup.status_div (snd (Popup.login (P := Sample.platform) Sample.accepting_tilde
                           (Sample.logged_out "~" "correct horse"))) =
    Some (VStr ("Authentication failed: " +:+
                message (P := Sample.platform) (Builtin InvalidCharacterError)),
          Popup.StatusError).
Proof. repeat split; reflexivity. Qed.

(** C4 at work, on the state logout leaves for a logged-in user. *)
Lemma logout_then_no_tokens_witness :
  Popup.trace (snd (Popup.accessProtected (P := Sample.platform) Sample.accepting
                      (snd (Popup.logout (Sample.logged_in 1700000500000))))) = [] /\
  Popup.status_div (snd (Popup.accessProtected (P := Sample.platform) Sample.accepting
                           (snd (Popup.logout (Sample.logged_in 1700000500000))))) =
    Some (VStr "No tokens found. Please login.", Popup.StatusError).
Proof.
  pose proof (logout_then_no_tokens (P := Sample.platform) Sample.accepting
                (Sample.logged_in 1700000500000)
                (snd (Popup.logout (Sample.logged_in 1700000500000)))
                eq_refl eq_refl) as (_ & _ & Htrace & Hstatus & _).
  split; [exact Htrace | exact Hstatus].
Defined.

(** C5 as stated fails for [login]: a password of five characters is
    sent to [/authenticate]. *)
Lemma login_short_password_is_sent :
  String.length (Popup.password_input (Sample.logged_out "alice" "short")) = 5 /\
  Popup.trace (snd (Popup.login (P := Sample.platform) Sample.refusing
                      (Sample.logged_out "alice" "short"))) =
    [Popup.authenticate_request "alice" "short"].
Proof. split; reflexivity. Qed.

(** C5 at work: the same submission never leaves [register]. *)
Lemma credentials_validation_witness :
  Popup.register (P := Sample.platform) Sample.accepting (Sample.logged_out "alice" "short") =
    (Return tt,
     Popup.set_status_div
       (Some (VStr "Password must be at least 8 characters long.", Popup.StatusError))
       (Sample.logged_out "alice" "short")).
Proof.
  apply (proj1 (proj2 (credentials_validation (P := Sample.platform) Sample.accepting
                         (Sample.logged_out "alice" "short")))); [done | done | cbn; lia].
Defined.

(** C7 as stated fails in the extension: after a refused refresh the token
    pair is still stored and the logout button still shown. *)
Lemma refused_refresh_keeps_tokens :
  Popup.chrome_local (snd (Popup.accessProtected (P := Sample.platform) Sample.refusing
                             (Sample.logged_in 1700000500000))) !! "auth_tokens" =
    Some (Popup.token_pair (VStr Sample.access_old) (VStr Sample.refresh_old)
            (VNum 1700000000000)) /\
  Popup.logout_hidden (snd (Popup.accessProtected (P := Sample.platform) Sample.refusing
                              (Sample.logged_in 1700000500000))) = false /\
  Popup.trace (snd (Popup.accessProtected (P := Sample.platform) Sample.refusing
                      (Sample.logged_in 1700000500000))) =
    [Popup.refresh_request (VStr Sample.refresh_old)].
Proof. repeat split; reflexivity. Qed.

(** C7 at work in the web page: a refused refresh clears both tokens. *)
Lemma refresh_failure_witness :
  exists p',
    Web.refreshAccessToken (P := Sample.platform) Sample.refusing Sample.member_page =
      (Return false, p') /\
    Web.trace p' = [Web.refresh_request (VStr Sample.refresh_old)] /\
    Web.accessToken p' = VStr "" /\ Web.refreshToken p' = VStr "" /\
    Web.localStorage p' !! "accessToken" = None /\
    Web.localStorage p' !! "refreshToken" = None /\
    fst (Web.isAuthenticated p') = Return false.
Proof.
  apply (proj2 (proj2 (proj2 (proj2 (refresh_failure (P := Sample.platform) Sample.refusing))))
           Sample.member_page); reflexivity.
Defined.

(** C9 as stated fails twice.  The web page's [storeTokens] persists the
    two tokens and no expiry; the extension's [storeTokens] persists
    nothing when the expiry cannot be derived. *)
Lemma store_without_expiry :
  Web.localStorage (snd (Web.storeTokens (P := Sample.platform)
                           (VStr Sample.access_new) (VStr Sample.refresh_new) Sample.visitor)) =
    {[ "accessToken" := Sample.access_new; "refreshToken" := Sample.refresh_new ]} /\
  Popup.storeTokens (P := Sample.platform) (VStr "b3BhcXVl") (VStr "cmVmcmVzaA")
      (Sample.logged_out "" "") =
    (Throw (Builtin InvalidCharacterError), Sample.logged_out "" "").
Proof. split; reflexivity. Qed.

(** C10 as stated fails for a segment that decodes to JSON other than an
    object: [MQ] is the base64 of the text [1], a number, and the pair is
    stored, with the expiry NaN. *)
Lemma number_payload_is_stored :
  atob "MQ" = Some "1" /\
  JSON_parse (Platform := Sample.platform) "1" = Some (VNum 1) /\
  Popup.getTokenExpiry (P := Sample.platform) (VStr Sample.access_number) = Return PrimFloat.nan /\
  Popup.chrome_local (snd (Popup.storeTokens (P := Sample.platform)
                             (VStr Sample.access_number) (VStr Sample.refresh_new)
                             (Sample.logged_out "" ""))) !! "auth_tokens" =
    Some (Popup.token_pair (VStr Sample.access_number) (VStr Sample.refresh_new)
            (VNum PrimFloat.nan)).
Proof. repeat split; reflexivity. Qed.

(** C8 at work: after a login and a later logout, starting from an empty
    storage, the entry is absent or a complete pair. *)
Lemma one_pair_wholesale_witness :
  Popup.complete_pair_or_absent (P := Sample.platform)
    (Popup.chrome_local
       (snd (Popup.perform (P := Sample.platform) Sample.accepting Popup.Logout
               (snd (Popup.perform (P := Sample.platform) Sample.accepting Popup.Login
                       (Sample.logged_out "alice" "correct horse"))))) !! "auth_tokens").
Proof.
  apply (proj2 (proj2 (proj1 (one_pair_wholesale (P := Sample.platform) Sample.accepting)
                  (Sample.logged_out "alice" "correct horse") _
                  (rtc_l _ _ _ _ (Popup.step_perform Sample.accepting Popup.Login _)
                     (rtc_once _ _ (Popup.step_perform Sample.accepting Popup.Logout _)))))).
  by left.
Defined.

(** C9 at work in the extension: a JWT stored is read back with its
    expiry. *)
Lemma token_cache_contract_witness :
  fst (Popup.getStoredTokens
         (snd (Popup.storeTokens (P := Sample.platform)
                 (VStr Sample.access_new) (VStr Sample.refresh_new) (Sample.logged_out "" "")))) =
    Return (Popup.token_pair (VStr Sample.access_new) (VStr Sample.refresh_new)
              (VNum 1700000900000)).
Proof.
  apply (proj1 (token_cache_contract (P := Sample.platform))
           (Sample.logged_out "" "") (VStr Sample.access_new) (VStr Sample.refresh_new)
           1700000900000%float); reflexivity.
Defined.

(** C10 at work: an accepted answer whose access token has no payload
    leaves the login with the trace and the message changed, nothing else. *)
Lemma storeTokens_atomic_witness :
  Popup.login (P := Sample.platform) Sample.opaque (Sample.logged_out "alice" "correct horse") =
    (Return tt,
     Popup.set_status_div
       (Some (VStr ("Authentication failed: " +:+
                    message (P := Sample.platform) (Builtin InvalidCharacterError)),
              Popup.StatusError))
       (Popup.set_trace [Popup.authenticate_request "alice" "correct horse"]
          (Sample.logged_out "alice" "correct horse"))).
Proof.
  apply (proj2 (proj2 (storeTokens_atomic (P := Sample.platform) Sample.opaque "b3BhcXVl"))
           (Builtin InvalidCharacterError) (Sample.logged_out "alice" "correct horse")
           (mkResponse 200 (Some (VObj [("status", VStr "ok");
                                        ("access_token", VStr "b3BhcXVl");
                                        ("refresh_token", VStr "cmVmcmVzaA")])))
           [("status", VStr "ok"); ("access_token", VStr "b3BhcXVl");
            ("refresh_token", VStr "cmVmcmVzaA")]);
    try reflexivity; done.
Defined.

(** * What [atob] refuses *)

Lemma sextets_reject (cs : list ascii) (c : ascii) :
  In c cs -> sextet c = None -> sextets cs = None.
Proof.
  intros Hin Hc. induction cs as [|c' cs IH]; [done|]. cbn.
  destruct Hin as [->|Hin].
  - by rewrite Hc.
  - rewrite (IH Hin). by destruct (sextet c').
Qed.

Lemma strip_padding_keeps (cs : list ascii) (c : ascii) :
  In c cs -> c <> "="%char -> In c (strip_padding cs).
Proof.
  intros Hin Hc. unfold strip_padding.
  destruct (length cs mod 4 =? 0)%nat; [|done].
  destruct (rev cs) as [|x l] eqn:Hrev; [done|].
  destruct (ascii_dec x "=") as [->|Hx].
  - assert (Hfront : In c (rev l)).
    { rewrite <- (rev_involutive cs), Hrev in Hin. cbn in Hin.
      apply in_app_iff in Hin as [?|[?|[]]]; [done|]. by subst. }
    destruct l as [|y l']; [done|].
    destruct (ascii_dec y "=") as [->|Hy].
    + cbn in Hfront. apply in_app_iff in Hfront as [?|[?|[]]]; [done|]. by subst.
    + destruct y as [[] [] [] [] [] [] [] []]; try done.
  - destruct x as [[] [] [] [] [] [] [] []]; try done.
Qed.

Lemma atob_rejects (s : string) (c : ascii) :
  In c (list_ascii_of_string s) ->
  sextet c = None -> is_ascii_whitespace c = false -> c <> "="%char ->
  atob s = None.
Proof.
  intros Hin Hsextet Hspace Hpad. unfold atob.
  destruct (_ =? 1)%nat; [done|].
  rewrite (sextets_reject _ c); [done| |done].
  apply strip_padding_keeps; [|done].
  apply list_elem_of_In, list_elem_of_filter. split; [by rewrite Hspace|].
  by apply list_elem_of_In.
Qed.

(** * More about the extension popup *)

Section PopupSessions.
Context {P : Platform} (net : network).
Import Popup PopupStart.

Ltac run_popup :=
  unfold accessProtected, login, register, logout, checkLoginStatus,
         getAccessToken, refreshAccessToken, storeTokens, getStoredTokens,
         setStatus, showLogoutButton, hideLogoutButton, fetch, response_json,
         try_catch, bind, ret, throw, lift, modify, gets.

Ltac split_cases := repeat (case_match; simplify_eq; cbn in *; try done).

Lemma accepted_of_grant (answer : fetch_result) (g : value * value * float) :
  token_grant answer = Some g -> accepted answer = true.
Proof.
  unfold token_grant, accepted. destruct answer as [|r]; [done|].
  destruct (json r) as [[| | | | | |fs]|]; try done.
  by destruct (ok r && strict_eq_str (lookup_field "status" fs) "ok").
Qed.

(** What [register] does with the answer, once the inputs passed. *)
Lemma register_accepted (w : world) :
  trim (username_input w) <> "" -> 8 <= String.length (password_input w) ->
  accepted (net (trace w) (register_request (trim (username_input w)) (password_input w))) = true ->
  register net w =
    (Return tt,
     set_password_input ""
       (set_status_div (Some (VStr "Registration successful.", StatusSuccess))
          (set_localStorage (<["username" := trim (username_input w)]> (localStorage w))
             (set_trace (trace w ++ [register_request (trim (username_input w))
                                       (password_input w)]) w)))).
Proof.
  intros Hu Hlong Hacc. unfold register, bind at 1 2, gets.
  assert (Hp : password_input w <> "") by (intros E; rewrite E in Hlong; cbn in Hlong; lia).
  rewrite (nonempty_is_truthy _ Hu), (nonempty_is_truthy _ Hp). cbn [orb].
  apply Nat.ltb_ge in Hlong. rewrite Hlong.
  unfold accepted in Hacc. run_popup. unfold ok_and_status_ok.
  destruct (net _ _) as [|r]; [done|]. cbn.
  destruct (json r) as [[| | | | | |fs]|]; try done. cbn.
  apply andb_true_iff in Hacc as [-> Hs]. cbn. by rewrite Hs.
Qed.

Lemma register_refused (w : world) :
  trim (username_input w) <> "" -> 8 <= String.length (password_input w) ->
  accepted (net (trace w) (register_request (trim (username_input w)) (password_input w))) = false ->
  exists shown,
    register net w =
      (Return tt,
       reported (Some (VStr ("Registration failed: " +:+ shown), StatusError))
         [register_request (trim (username_input w)) (password_input w)] w).
Proof.
  intros Hu Hlong Hacc. unfold register, bind at 1 2, gets.
  assert (Hp : password_input w <> "") by (intros E; rewrite E in Hlong; cbn in Hlong; lia).
  rewrite (nonempty_is_truthy _ Hu), (nonempty_is_truthy _ Hp). cbn [orb].
  apply Nat.ltb_ge in Hlong. rewrite Hlong.
  unfold accepted in Hacc. run_popup. unfold ok_and_status_ok, reported.
  destruct (net _ _) as [|r]; cbn; [eauto|].
  destruct (json r) as [body|]; cbn; [|eauto].
  destruct body; cbn; eauto.
  all: try (destruct (ok r); cbn; eauto).
  destruct (strict_eq_str _ _); cbn in *; eauto. done.
Qed.

Lemma register_rejected (w : world) :
  trim (username_input w) = "" \/ String.length (password_input w) < 8 ->
  exists shown, register net w = (Return tt, reported (Some (VStr shown, StatusError)) [] w).
Proof.
  intros Hbad. unfold register, bind at 1 2, gets, reported. rewrite app_nil_r.
  destruct (negb (ToBoolean (VStr (trim (username_input w)))) ||
            negb (ToBoolean (VStr (password_input w)))) eqn:Hempty.
  - eexists. unfold setStatus, modify. cbn. by destruct w.
  - apply orb_false_iff in Hempty as [Hu Hp].
    destruct Hbad as [Hu'|Hshort].
    + apply empty_is_falsy in Hu'. congruence.
    + apply Nat.ltb_lt in Hshort. rewrite Hshort.
      eexists. unfold setStatus, modify. cbn. by destruct w.
Qed.

(** X1.  [register] saves the trimmed username under [username] and
    empties the password input when the inputs pass its checks and the
    answer is accepted (OK, status ok).  When an input fails a check it
    only shows an error, and makes no call; when the inputs pass and the
    answer is not accepted it only shows a registration failure, after its
    one call to [/register].  In every case the token storage and the
    logout button stay as they were: registering does not log the user
    in. *)
Theorem register_outcome (w : world) :
  (trim (username_input w) <> "" -> 8 <= String.length (password_input w) ->
   accepted (net (trace w) (register_request (trim (username_input w)) (password_input w))) = true ->
   register net w =
     (Return tt,
      set_password_input ""
        (set_status_div (Some (VStr "Registration successful.", StatusSuccess))
           (set_localStorage (<["username" := trim (username_input w)]> (localStorage w))
              (set_trace (trace w ++ [register_request (trim (username_input w))
                                        (password_input w)]) w))))) /\
  (trim (username_input w) = "" \/ String.length (password_input w) < 8 ->
   exists shown,
     register net w = (Return tt, reported (Some (VStr shown, StatusError)) [] w)) /\
  (trim (username_input w) <> "" -> 8 <= String.length (password_input w) ->
   accepted (net (trace w) (register_request (trim (username_input w)) (password_input w))) = false ->
   exists shown,
     register net w =
       (Return tt,
        reported (Some (VStr ("Registration failed: " +:+ shown), StatusError))
          [register_request (trim (username_input w)) (password_input w)] w)) /\
  chrome_local (snd (register net w)) = chrome_local w /\
  logout_hidden (snd (register net w)) = logout_hidden w.
Proof.
  split; [apply register_accepted|].
  split; [apply register_rejected|].
  split; [apply register_refused|].
  - destruct (String.eqb_spec (trim (username_input w)) "") as [Hu|Hu];
      [by destruct (register_rejected w (or_introl Hu)) as [shown ->]|].
    destruct (Nat.lt_ge_cases (String.length (password_input w)) 8) as [Hshort|Hlong];
      [by destruct (register_rejected w (or_intror Hshort)) as [shown ->]|].
    destruct (accepted (net (trace w) (register_request (trim (username_input w))
                                         (password_input w)))) eqn:Hacc.
    + by rewrite (register_accepted w Hu Hlong Hacc).
    + by destruct (register_refused w Hu Hlong Hacc) as [shown ->].
Qed.

(** X2.  [login] shows a success message exactly when both inputs are
    filled in and the answer granted a token pair, the case in which it
    stores that pair.  When an input is empty all it does is to show
    "Please enter your username and password.", without a call; when both
    are filled in and the answer grants nothing all it leaves is an
    authentication failure in the status element and its one call to
    [/authenticate] in the trace.  In these two cases the password input,
    the logout button and both storages are untouched. *)
Theorem login_outcome (w : world) :
  ((exists m, status_div (snd (login net w)) = Some (m, StatusSuccess)) <->
   trim (username_input w) <> "" /\ password_input w <> "" /\
   is_Some (token_grant (net (trace w) (authenticate_request (trim (username_input w))
                                           (password_input w))))) /\
  (trim (username_input w) = "" \/ password_input w = "" ->
   login net w =
     (Return tt,
      reported (Some (VStr "Please enter your username and password.", StatusError)) [] w)) /\
  (trim (username_input w) <> "" -> password_input w <> "" ->
   token_grant (net (trace w) (authenticate_request (trim (username_input w))
                                  (password_input w))) = None ->
   exists shown,
     login net w =
       (Return tt,
        reported (Some (VStr ("Authentication failed: " +:+ shown), StatusError))
          [authenticate_request (trim (username_input w)) (password_input w)] w)).
Proof.
  assert (Hempty : trim (username_input w) = "" \/ password_input w = "" ->
                   login net w =
                     (Return tt,
                      reported (Some (VStr "Please enter your username and password.",
                                      StatusError)) [] w)).
  { intros Hbad. rewrite (login_empty_input net w Hbad).
    unfold reported. rewrite app_nil_r. by destruct w. }
  split; [|split; [exact Hempty | apply (login_refused net w)]].
  split.
  - intros [m Hm].
    destruct (String.eqb_spec (trim (username_input w)) "") as [Hu|Hu];
      [by rewrite (Hempty (or_introl Hu)) in Hm|].
    destruct (String.eqb_spec (password_input w) "") as [Hp|Hp];
      [by rewrite (Hempty (or_intror Hp)) in Hm|].
    destruct (token_grant (net (trace w) (authenticate_request (trim (username_input w))
                                            (password_input w)))) eqn:Hgrant; [eauto|].
    destruct (login_refused net w Hu Hp Hgrant) as (shown & Hrun).
    by rewrite Hrun in Hm.
  - intros (Hu & Hp & [[[access refresh] e] Hgrant]).
    rewrite (login_granted net _ _ _ _ Hu Hp Hgrant). eauto.
Qed.

(** Once the access token is there, [accessProtected] always shows a
    message. *)
Lemma accessProtected_shows (w w1 : world) (access : value) :
  getAccessToken net w = (Return access, w1) ->
  exists m c,
    accessProtected net w = (Return tt, reported (Some (m, c)) [protected_request access] w1).
Proof.
  intros Htok. unfold accessProtected, try_catch, bind at 1. rewrite Htok. clear Htok.
  run_popup. unfold ok_and_status_ok, reported.
  destruct (net _ _) as [|resp]; cbn; [eauto|].
  destruct (json resp) as [body|]; cbn; [|eauto].
  destruct (ok resp); cbn.
  - destruct (member body "status") as [st|]; cbn; [|eauto].
    destruct (strict_eq_str st "ok"), (member body "message"); cbn; eauto.
  - destruct (member body "message"); cbn; eauto.
Qed.

(** What [getAccessToken] met in the storage, by what it does. *)
Lemma getAccessToken_reads (w : world) :
  (exists ex, getAccessToken net w = (Throw ex, w)) \/
  (exists access,
      stored_token w "access_token" = Return access /\
      getAccessToken net w = (Return access, w)) \/
  (exists held,
      stored_token w "refresh_token" = Return held /\
      getAccessToken net w =
        (let* newTokens := refreshAccessToken net held in
         lift (member newTokens "access_token")) w).
Proof.
  unfold stored_token, getAccessToken, getStoredTokens, bind, gets, lift, throw.
  destruct (lastError w); [eauto|].
  destruct (negb (ToBoolean _)); [eauto|].
  destruct (member _ "access_token_expiry") as [expiry|]; [|eauto].
  destruct (PrimFloat.ltb _ _).
  - destruct (member _ "refresh_token") as [held|]; [|eauto].
    right; right. by exists held.
  - destruct (member _ "access_token"); eauto.
Qed.

(** All that [accessProtected] can do, by what [getAccessToken] met. *)
Lemma accessProtected_runs (w : world) :
  exists m c calls w1,
    accessProtected net w = (Return tt, reported (Some (m, c)) calls w1) /\
    (w1 = w \/
     exists req access refresh e,
       token_grant (net (trace w) req) = Some (access, refresh, e) /\
       w1 = set_chrome_local
              (<["auth_tokens" := token_pair access refresh (VNum e)]> (chrome_local w)) w) /\
    calls_allowed net AccessProtected w calls.
Proof.
  destruct (getAccessToken_reads w) as [[ex Hget]|[(access & Hread & Hget)|(held & Hread & Hget)]].
  - rewrite (accessProtected_without_token _ _ _ _ Hget).
    exists (VStr (message ex)), StatusError, [], w. unfold reported. rewrite app_nil_r.
    split; [by destruct w|]. split; [by left|]. by left.
  - destruct (accessProtected_shows _ _ _ Hget) as (m & c & ->).
    exists m, c, [protected_request access], w. split; [done|]. split; [by left|].
    right; left. by exists access.
  - unfold bind, lift in Hget.
    destruct (token_grant (net (trace w) (refresh_request held)))
      as [[[access refresh] e]|] eqn:Hgrant.
    + rewrite (refreshAccessToken_granted _ _ _ _ _ _ Hgrant) in Hget. cbn in Hget.
      destruct (accessProtected_shows _ _ _ Hget) as (m & c & ->).
      exists m, c, [refresh_request held; protected_request access],
        (set_chrome_local
           (<["auth_tokens" := token_pair access refresh (VNum e)]> (chrome_local w)) w).
      split; [unfold reported; cbn; by rewrite <- app_assoc|].
      split; [right; eauto 10|]. right; right; right.
      by exists held, access, refresh, e.
    + destruct (refreshAccessToken_refused _ _ _ Hgrant) as [ex Hrefused].
      rewrite Hrefused in Hget.
      rewrite (accessProtected_without_token _ _ _ _ Hget).
      exists (VStr (message ex)), StatusError, [refresh_request held], w.
      split; [done|]. split; [by left|]. right; right; left. by exists held.
Qed.

(** X3.  No exception leaves [register], [login], [accessProtected] or
    the status check, the handlers whose work sits in a try/catch:
    whatever the server does (no answer, a body that is not JSON, null, a
    refusal) and whatever the storage holds or reports, each of them
    returns normally, and the three click handlers leave a message in the
    status element.  ([logout] awaits the removal outside any try/catch
    and is not among them.) *)
Theorem handlers_always_report (w : world) :
  (fst (register net w) = Return tt /\ is_Some (status_div (snd (register net w)))) /\
  (fst (login net w) = Return tt /\ is_Some (status_div (snd (login net w)))) /\
  (fst (accessProtected net w) = Return tt /\
   is_Some (status_div (snd (accessProtected net w)))) /\
  fst (checkLoginStatus w) = Return tt.
Proof.
  split; [|split; [|split]].
  - destruct (String.eqb_spec (trim (username_input w)) "") as [Hu|Hu];
      [by destruct (register_rejected w (or_introl Hu)) as [shown ->]|].
    destruct (Nat.lt_ge_cases (String.length (password_input w)) 8) as [Hshort|Hlong];
      [by destruct (register_rejected w (or_intror Hshort)) as [shown ->]|].
    destruct (accepted (net (trace w) (register_request (trim (username_input w))
                                         (password_input w)))) eqn:Hacc.
    + by rewrite (register_accepted w Hu Hlong Hacc).
    + by destruct (register_refused w Hu Hlong Hacc) as [shown ->].
  - destruct (String.eqb_spec (trim (username_input w)) "") as [Hu|Hu];
      [by rewrite (login_empty_input net w (or_introl Hu))|].
    destruct (String.eqb_spec (password_input w) "") as [Hp|Hp];
      [by rewrite (login_empty_input net w (or_intror Hp))|].
    destruct (token_grant (net (trace w) (authenticate_request (trim (username_input w))
                                            (password_input w))))
      as [[[access refresh] e]|] eqn:Hgrant.
    + by rewrite (login_granted net _ _ _ _ Hu Hp Hgrant).
    + by destruct (login_refused net _ Hu Hp Hgrant) as [shown ->].
  - by destruct (accessProtected_runs w) as (m & c & calls & w1 & -> & _).
  - run_popup. by split_cases.
Qed.

(** X4.  A handler only adds to the trace, and never more than two
    calls.  [register] and [login] add nothing when an input fails their
    check and their one call otherwise; [logout] and the status check add
    nothing.  [accessProtected] adds nothing, or the protected call with
    the stored access token, or - when the refresh grants nothing - the
    refresh call with the stored refresh token alone, or that refresh call
    followed by the protected call with the access token the refresh
    answer granted. *)
Theorem perform_calls (a : action) (w : world) :
  exists calls,
    trace (snd (perform net a w)) = trace w ++ calls /\ calls_allowed net a w calls.
Proof.
  destruct a; cbn [perform calls_allowed].
  - destruct (String.eqb_spec (trim (username_input w)) "") as [Hu|Hu];
      [destruct (register_rejected w (or_introl Hu)) as [shown ->]; exists []; eauto|].
    destruct (Nat.lt_ge_cases (String.length (password_input w)) 8) as [Hshort|Hlong];
      [destruct (register_rejected w (or_intror Hshort)) as [shown ->]; exists []; eauto|].
    destruct (accepted (net (trace w) (register_request (trim (username_input w))
                                         (password_input w)))) eqn:Hacc.
    + rewrite (register_accepted w Hu Hlong Hacc). eauto 10.
    + destruct (register_refused w Hu Hlong Hacc) as [shown ->]. eauto 10.
  - destruct (String.eqb_spec (trim (username_input w)) "") as [Hu|Hu];
      [rewrite (login_empty_input net w (or_introl Hu)); exists []; rewrite app_nil_r; eauto|].
    destruct (String.eqb_spec (password_input w) "") as [Hp|Hp];
      [rewrite (login_empty_input net w (or_intror Hp)); exists []; rewrite app_nil_r; eauto|].
    destruct (token_grant (net (trace w) (authenticate_request (trim (username_input w))
                                            (password_input w))))
      as [[[access refresh] e]|] eqn:Hgrant.
    + rewrite (login_granted net _ _ _ _ Hu Hp Hgrant). eauto 10.
    + destruct (login_refused net _ Hu Hp Hgrant) as [shown ->]. eauto 10.
  - exists []. by rewrite app_nil_r.
  - destruct (accessProtected_runs w) as (m & c & calls & w1 & -> & [->|Hw1] & Hcalls).
    + by exists calls.
    + destruct Hw1 as (req & access & refresh & e & _ & ->). by exists calls.
  - exists []. rewrite app_nil_r. split; [|done]. run_popup. by split_cases.
Qed.

Lemma register_frame (w : world) :
  chrome_local (snd (register net w)) = chrome_local w /\
  logout_hidden (snd (register net w)) = logout_hidden w.
Proof.
  destruct (String.eqb_spec (trim (username_input w)) "") as [Hu|Hu];
    [by destruct (register_rejected w (or_introl Hu)) as [shown ->]|].
  destruct (Nat.lt_ge_cases (String.length (password_input w)) 8) as [Hshort|Hlong];
    [by destruct (register_rejected w (or_intror Hshort)) as [shown ->]|].
  destruct (accepted (net (trace w) (register_request (trim (username_input w))
                                       (password_input w)))) eqn:Hacc.
  - by rewrite (register_accepted w Hu Hlong Hacc).
  - by destruct (register_refused w Hu Hlong Hacc) as [shown ->].
Qed.

Lemma init_matches (w : world) : button_matches_storage (snd (init w)).
Proof.
  unfold init, button_matches_storage. run_popup.
  destruct (lastError w); cbn; [done|].
  destruct (chrome_local w !! "auth_tokens") as [v|] eqn:Hentry; cbn.
  - destruct (ToBoolean v); cbn; [by rewrite Hentry|done].
  - done.
Qed.

Lemma perform_matches (a : action) (w : world) :
  button_matches_storage w -> button_matches_storage (snd (perform net a w)).
Proof.
  intros Hinv. destruct a; cbn [perform].
  - unfold button_matches_storage. destruct (register_frame w) as [-> ->]. exact Hinv.
  - destruct (String.eqb_spec (trim (username_input w)) "") as [Hu|Hu];
      [by rewrite (login_empty_input net w (or_introl Hu))|].
    destruct (String.eqb_spec (password_input w) "") as [Hp|Hp];
      [by rewrite (login_empty_input net w (or_intror Hp))|].
    destruct (token_grant (net (trace w) (authenticate_request (trim (username_input w))
                                            (password_input w))))
      as [[[access refresh] e]|] eqn:Hgrant.
    + rewrite (login_granted net _ _ _ _ Hu Hp Hgrant). intros _. cbn.
      by rewrite lookup_insert_eq.
    + by destruct (login_refused net _ Hu Hp Hgrant) as [shown ->].
  - by run_popup.
  - destruct (accessProtected_runs w) as (m & c & calls & w1 & -> & [->|Hw1] & _); [done|].
    destruct Hw1 as (req & access & refresh & e & _ & ->). intros _. cbn.
    by rewrite lookup_insert_eq.
  - apply init_matches.
Qed.

(** X5.  From the start of the popup on, over any session, the logout
    button is shown only while a token entry is stored. *)
Theorem logout_button_invariant (w0 w : world) :
  rtc (step net) (snd (init w0)) w -> button_matches_storage w.
Proof.
  intros Hrun. remember (snd (init w0)) as w1 eqn:Hstart.
  assert (Hinv : button_matches_storage w1) by (subst; apply init_matches).
  clear Hstart. induction Hrun as [w|w w2 w3 Hstep _ IH]; [done|].
  apply IH. destruct Hstep as [a w|w failing username password time].
  - by apply perform_matches.
  - exact Hinv.
Qed.

(** X6.  A granted login followed by a protected-resource request, while
    the new token has not expired, makes two calls in all: the one to
    [/authenticate], then the one to [/protected] carrying the access
    token just granted. *)
Theorem login_then_request (w : world) (access refresh : value) (e : float) :
  lastError w = None ->
  trim (username_input w) <> "" -> password_input w <> "" ->
  token_grant (net (trace w) (authenticate_request (trim (username_input w))
                                (password_input w))) = Some (access, refresh, e) ->
  PrimFloat.ltb e (now w) = false ->
  trace (snd (accessProtected net (snd (login net w)))) =
    trace w ++ [authenticate_request (trim (username_input w)) (password_input w);
                protected_request access].
Proof.
  intros Hread Hu Hp Hgrant Hfresh.
  rewrite (login_granted net _ _ _ _ Hu Hp Hgrant). cbn [snd].
  match goal with |- trace (snd (accessProtected net ?w1)) = _ =>
    destruct (accessProtected_with_token net w1 w1 access) as [shown ->]
  end.
  - apply getAccessToken_unexpired with refresh (VNum e); cbn; [done| |done].
    apply lookup_insert_eq.
  - cbn. by rewrite <- app_assoc.
Qed.

(** X7.  After a granted refresh the rotation has taken effect: a second
    request, made while the new token has not expired, makes its one call
    with the new access token and no refresh. *)
Theorem refresh_then_second_request (w : world) (access refresh expiry : value)
    (access' refresh' : value) (e : float) :
  lastError w = None ->
  chrome_local w !! "auth_tokens" = Some (token_pair access refresh expiry) ->
  PrimFloat.ltb (ToNumber expiry) (now w) = true ->
  token_grant (net (trace w) (refresh_request refresh)) = Some (access', refresh', e) ->
  PrimFloat.ltb e (now w) = false ->
  trace (snd (accessProtected net (snd (accessProtected net w)))) =
    trace w ++ [refresh_request refresh; protected_request access';
                protected_request access'].
Proof.
  intros Hread Hpair Hpast Hgrant Hfresh.
  destruct (accessProtected_refresh_granted net _ _ _ _ _ _ _ Hread Hpair Hpast Hgrant)
    as [shown ->]. cbn [snd].
  match goal with |- trace (snd (accessProtected net ?w1)) = _ =>
    destruct (accessProtected_with_token net w1 w1 access') as [shown' ->]
  end.
  - apply getAccessToken_unexpired with refresh' (VNum e); cbn; [done| |done].
    apply lookup_insert_eq.
  - cbn. by rewrite <- app_assoc.
Qed.

(** X8.  A refused refresh is not remembered: the pair stays stored, and
    the next request starts with the same call to [/refresh] again. *)
Theorem refused_refresh_is_asked_again (w : world) (access refresh expiry : value) :
  lastError w = None ->
  chrome_local w !! "auth_tokens" = Some (token_pair access refresh expiry) ->
  PrimFloat.ltb (ToNumber expiry) (now w) = true ->
  token_grant (net (trace w) (refresh_request refresh)) = None ->
  chrome_local (snd (accessProtected net w)) = chrome_local w /\
  exists rest,
    trace (snd (accessProtected net (snd (accessProtected net w)))) =
      trace w ++ refresh_request refresh :: refresh_request refresh :: rest.
Proof.
  intros Hread Hpair Hpast Hgrant.
  destruct (accessProtected_refresh_refused net _ _ _ _ Hread Hpair Hpast Hgrant) as [ex ->].
  split; [done|]. cbn [snd].
  set (w1 := set_status_div _ _).
  assert (Hget : getAccessToken net w1 =
                   (let* newTokens := refreshAccessToken net refresh in
                    lift (member newTokens "access_token")) w1)
    by (by apply getAccessToken_expired with access expiry).
  unfold bind, lift in Hget.
  destruct (token_grant (net (trace w1) (refresh_request refresh)))
    as [[[access' refresh'] e]|] eqn:Hagain.
  - rewrite (refreshAccessToken_granted _ _ _ _ _ _ Hagain) in Hget. cbn in Hget.
    destruct (accessProtected_with_token _ _ _ _ Hget) as [shown ->].
    exists [protected_request access']. cbn. by rewrite <- !app_assoc.
  - destruct (refreshAccessToken_refused _ _ _ Hagain) as [ex' Hrefused].
    rewrite Hrefused in Hget. rewrite (accessProtected_without_token _ _ _ _ Hget).
    exists []. cbn. by rewrite <- !app_assoc.
Qed.

(** X9.  When the read of [chrome.storage.local] fails, a protected-resource
    request shows the storage error and issues no call, whatever is
    stored, and the status check hides the logout button. *)
Theorem storage_error_is_reported (w : world) (m : string) :
  lastError w = Some m ->
  accessProtected net w = (Return tt, set_status_div (Some (VStr m, StatusError)) w) /\
  init w = (Return tt, set_logout_hidden true w).
Proof.
  intros Hfail. split.
  - apply (accessProtected_without_token net w w (LastError m)).
    run_popup. by rewrite Hfail.
  - unfold init. run_popup. by rewrite Hfail.
Qed.

(** X10.  [getTokenExpiry] decodes with [atob], which knows the alphabet
    of base64 and not that of base64url: an access token whose second
    segment holds a [-] or a [_] makes it throw, so a login accepted with
    such a token stores nothing and reports an authentication failure. *)
Theorem base64url_segment_is_rejected (token segment : string) :
  split "." token !! 1%nat = Some segment ->
  In "-"%char (list_ascii_of_string segment) \/ In "_"%char (list_ascii_of_string segment) ->
  getTokenExpiry (VStr token) = Throw (Builtin InvalidCharacterError) /\
  (forall (w : world) (resp : response) (fs : list (string * value)),
      trim (username_input w) <> "" -> password_input w <> "" ->
      net (trace w) (authenticate_request (trim (username_input w)) (password_input w)) =
        Responded resp ->
      json resp = Some (VObj fs) ->
      lookup_field "access_token" fs = VStr token ->
      exists shown,
        login net w =
          (Return tt,
           reported (Some (VStr ("Authentication failed: " +:+ shown), StatusError))
             [authenticate_request (trim (username_input w)) (password_input w)] w)).
Proof.
  intros Hseg Hchar.
  assert (Hthrow : getTokenExpiry (VStr token) = Throw (Builtin InvalidCharacterError)).
  { unfold getTokenExpiry. rewrite Hseg. cbn [ToString].
    destruct Hchar as [Hin|Hin].
    - by rewrite (atob_rejects segment "-" Hin).
    - by rewrite (atob_rejects segment "_" Hin). }
  split; [done|].
  intros w resp fs Hu Hp Hnet Hjson Haccess.
  apply login_refused; [done|done|].
  rewrite Hnet. unfold token_grant. rewrite Hjson, Haccess, Hthrow.
  by destruct (ok resp && _).
Qed.

End PopupSessions.

(** * More about the web page *)

Section WebSessions.
Context {P : Platform} (net : network).
Import Web WebUI.

Ltac run_web :=
  unfold authenticatedFetch, Web.login, Web.register, logout, refreshAccessToken,
         storeTokens, loadTokens, clearTokens, isAuthenticated,
         showSection, hideSection, alert, console_error, fetch, response_json,
         try_catch, bind, ret, throw, lift, modify, gets.

Lemma web_login_granted (p : page) (username password : string) (access refresh : value) :
  refresh_grant (net (trace p) (authenticate_request username password)) = Some (access, refresh) ->
  Web.login net username password p =
    (Return true,
     set_localStorage
       (<["username" := username]>
          (<["refreshToken" := ToString refresh]>
             (<["accessToken" := ToString access]> (localStorage p))))
       (set_tokens access refresh
          (set_trace (trace p ++ [authenticate_request username password]) p))).
Proof.
  intros Hgrant. unfold refresh_grant in Hgrant. run_web.
  fold (authenticate_request username password).
  destruct (net _ _) as [|resp]; [done|]. cbn.
  destruct (ok resp); [|done].
  destruct (json resp) as [data|]; [|done]. cbn.
  destruct (member data "access_token") as [a|]; [|done].
  destruct (member data "refresh_token") as [r|]; [|done].
  by injection Hgrant as <- <-.
Qed.

Lemma web_login_refused (p : page) (username password : string) :
  refresh_grant (net (trace p) (authenticate_request username password)) = None ->
  exists text log,
    Web.login net username password p =
      (Return false, noted [authenticate_request username password] [text] log p).
Proof.
  intros Hgrant. unfold refresh_grant in Hgrant. run_web. unfold detail_or_unknown, noted.
  fold (authenticate_request username password).
  destruct (net _ _) as [|resp]; cbn; [by eexists _, [_]|].
  destruct (ok resp); cbn.
  - destruct (json resp) as [data|]; cbn; [|by eexists _, [_]].
    destruct (member data "access_token") as [a|]; cbn; [|by eexists _, [_]].
    destruct (member data "refresh_token") as [r|]; cbn; [done|by eexists _, [_]].
  - destruct (json resp) as [data|]; cbn; [|by eexists _, [_]].
    destruct (member data "detail") as [d|]; cbn; [|by eexists _, [_]].
    eexists _, []. by rewrite app_nil_r.
Qed.

Lemma web_register_runs (p : page) (username password : string) :
  exists text log,
    Web.register net username password p =
      (Return (answered_ok (net (trace p) (register_request username password))),
       noted [register_request username password] [text] log p).
Proof.
  run_web. unfold detail_or_unknown, noted, answered_ok.
  fold (register_request username password).
  destruct (net _ _) as [|resp]; cbn; [by eexists _, [_]|].
  destruct (ok resp) eqn:Hok; cbn.
  - eexists _, []. by rewrite app_nil_r.
  - destruct (json resp) as [data|]; cbn; [|by eexists _, [_]].
    destruct (member data "detail") as [d|]; cbn; [|by eexists _, [_]].
    eexists _, []. by rewrite app_nil_r.
Qed.

(** X11.  [login] of the web page returns true, and stores the strings of
    the two tokens and the username, exactly when the answer is OK with a
    JSON body other than null: it looks neither at a status field nor at
    whether the body holds tokens.  For every other answer it returns
    false after its one call and one alert, with the tokens and
    [localStorage] as they were. *)
Theorem web_login_outcome (p : page) (username password : string) :
  (forall access refresh,
      refresh_grant (net (trace p) (authenticate_request username password)) =
        Some (access, refresh) ->
      Web.login net username password p =
        (Return true,
         set_localStorage
           (<["username" := username]>
              (<["refreshToken" := ToString refresh]>
                 (<["accessToken" := ToString access]> (localStorage p))))
           (set_tokens access refresh
              (set_trace (trace p ++ [authenticate_request username password]) p)))) /\
  (refresh_grant (net (trace p) (authenticate_request username password)) = None ->
   exists text log,
     Web.login net username password p =
       (Return false, noted [authenticate_request username password] [text] log p)).
Proof.
  split.
  - intros access refresh. apply web_login_granted.
  - apply web_login_refused.
Qed.

(** X12.  [register] of the web page returns [response.ok] of the answer
    (false when there is none) after its one call and one alert; it
    changes neither the tokens nor [localStorage]. *)
Theorem web_register_outcome (p : page) (username password : string) :
  fst (Web.register net username password p) =
    Return (answered_ok (net (trace p) (register_request username password))) /\
  trace (snd (Web.register net username password p)) =
    trace p ++ [register_request username password] /\
  (exists text, alerts (snd (Web.register net username password p)) = alerts p ++ [text]) /\
  accessToken (snd (Web.register net username password p)) = accessToken p /\
  refreshToken (snd (Web.register net username password p)) = refreshToken p /\
  localStorage (snd (Web.register net username password p)) = localStorage p.
Proof.
  destruct (web_register_runs p username password) as (text & log & ->).
  repeat split; try done. by exists text.
Qed.

Lemma mirrored_stored (access refresh : value) (p : page) : mirrored (stored access refresh p).
Proof.
  unfold mirrored, stored. cbn. rewrite lookup_insert_ne by done.
  by rewrite !lookup_insert_eq.
Qed.

Lemma mirrored_cleared (p : page) : mirrored (cleared p).
Proof.
  unfold mirrored, cleared. cbn. rewrite lookup_delete_ne by done.
  by rewrite !lookup_delete_eq.
Qed.

Lemma mirrored_logged_out (p : page) : logged_out p -> mirrored p.
Proof.
  intros (Ha & Hr & Hsa & Hsr & _). unfold mirrored. by rewrite Ha, Hr, Hsa, Hsr.
Qed.

(** Being mirrored depends on the tokens and the two entries only. *)
Lemma mirrored_same (p q : page) :
  accessToken q = accessToken p -> refreshToken q = refreshToken p ->
  localStorage q !! "accessToken" = localStorage p !! "accessToken" ->
  localStorage q !! "refreshToken" = localStorage p !! "refreshToken" ->
  mirrored p -> mirrored q.
Proof. unfold mirrored. by intros -> -> -> ->. Qed.

Lemma refreshAccessToken_mirrored (p : page) :
  mirrored p -> mirrored (snd (refreshAccessToken net p)).
Proof.
  intros Hp. destruct (ToBoolean (refreshToken p)) eqn:Hheld.
  - destruct (refresh_grant (net (trace p) (refresh_request (refreshToken p))))
      as [[access refresh]|] eqn:Hgrant.
    + rewrite (refreshAccessToken_web_granted net p access refresh Hheld Hgrant).
      apply mirrored_stored.
    + destruct (refreshAccessToken_web_refused net p Hheld Hgrant) as [log ->].
      apply mirrored_cleared.
  - by rewrite refreshAccessToken_nothing_held.
Qed.

Lemma authenticatedFetch_mirrored (p : page) (target : string) (o : options) :
  mirrored p -> mirrored (snd (authenticatedFetch net target o p)).
Proof.
  intros Hp. unfold authenticatedFetch, bind at 1 2, gets, fetch.
  destruct (net _ _) as [|r]; [done|].
  destruct (status r =? 401)%Z; [|done].
  set (p1 := set_trace _ p).
  assert (Hp1 : mirrored p1) by done.
  unfold bind at 1.
  pose proof (refreshAccessToken_mirrored p1 Hp1) as Hafter.
  destruct (refreshAccessToken net p1) as [[[]|] p2] eqn:Hrefresh; cbn in Hafter.
  - unfold bind, gets, fetch. by destruct (net _ _).
  - destruct (session_expired p2) as (p' & Hrun & Hout & _). rewrite Hrun.
    by apply mirrored_logged_out.
  - exact Hafter.
Qed.

Lemma login_mirrored (p : page) (username password : string) :
  mirrored p -> mirrored (snd (Web.login net username password p)).
Proof.
  intros Hp.
  destruct (refresh_grant (net (trace p) (authenticate_request username password)))
    as [[access refresh]|] eqn:Hgrant.
  - rewrite (web_login_granted _ _ _ _ _ Hgrant).
    eapply mirrored_same; [| | | |apply (mirrored_stored access refresh p)]; cbn; try done.
    + by rewrite lookup_insert_ne.
    + by rewrite lookup_insert_ne.
  - by destruct (web_login_refused _ _ _ Hgrant) as (text & log & ->).
Qed.

Lemma register_mirrored (p : page) (username password : string) :
  mirrored p -> mirrored (snd (Web.register net username password p)).
Proof.
  intros Hp. by destruct (web_register_runs p username password) as (text & log & ->).
Qed.

(** X13.  The script's two variables mirror [localStorage]: each has the
    string of its entry, the empty string when there is none.
    [loadTokens], [storeTokens], [clearTokens] and [logout] establish
    this; the refresh, the authenticated fetch, [login] and [register]
    keep it; and on a page where it holds a reload brings back the very
    strings the variables had. *)
Theorem tokens_mirror_localStorage (p : page) :
  mirrored (snd (loadTokens p)) /\
  (forall access refresh, mirrored (snd (storeTokens access refresh p))) /\
  mirrored (snd (clearTokens p)) /\
  mirrored (snd (logout p)) /\
  (mirrored p ->
   mirrored (snd (refreshAccessToken net p)) /\
   (forall target o, mirrored (snd (authenticatedFetch net target o p))) /\
   (forall username password, mirrored (snd (Web.login net username password p))) /\
   (forall username password, mirrored (snd (Web.register net username password p))) /\
   ToString (accessToken (snd (loadTokens p))) = ToString (accessToken p) /\
   ToString (refreshToken (snd (loadTokens p))) = ToString (refreshToken p)).
Proof.
  split; [by unfold loadTokens, modify, getItem_or_empty|].
  split; [intros; rewrite storeTokens_stores_both; apply mirrored_stored|].
  split; [rewrite clearTokens_clears; apply mirrored_cleared|].
  split.
  { destruct (logout_logs_out p) as (p' & -> & Hout & _). by apply mirrored_logged_out. }
  intros Hp.
  split; [by apply refreshAccessToken_mirrored|].
  split; [by intros; apply authenticatedFetch_mirrored|].
  split; [by intros; apply login_mirrored|].
  split; [by intros; apply register_mirrored|].
  destruct Hp as [Ha Hr].
  unfold loadTokens, modify, getItem_or_empty. cbn. by rewrite Ha, Hr.
Qed.

(** The document once a listener has alerted that an input is missing. *)
Lemma modal_click_empty (d : document) :
  trim (usernameInput d) = "" \/ passwordInput d = "" ->
  ToBoolean (VStr (trim (usernameInput d))) && ToBoolean (VStr (passwordInput d)) = false.
Proof.
  intros [-> | ->]; [done|]. apply andb_false_r.
Qed.

Lemma modal_click_filled (d : document) :
  trim (usernameInput d) <> "" -> passwordInput d <> "" ->
  ToBoolean (VStr (trim (usernameInput d))) && ToBoolean (VStr (passwordInput d)) = true.
Proof.
  intros Hu Hp. cbn.
  apply String.eqb_neq in Hu. apply String.eqb_neq in Hp. by rewrite Hu, Hp.
Qed.

(** What the login listener leaves in the script, whatever the answer:
    the page [login] left, up to the two classes. *)
Lemma login_click_script (d : document) :
  trim (usernameInput d) <> "" -> passwordInput d <> "" ->
  exists hidden_auth hidden_welcome,
    script (snd (loginModalButton_click net d)) =
      set_hidden welcomeSection hidden_welcome
        (set_hidden authSection hidden_auth
           (snd (Web.login net (trim (usernameInput d)) (passwordInput d) (script d)))).
Proof.
  intros Hu Hp. unfold loginModalButton_click, bind at 1 2, gets.
  rewrite (modal_click_filled d Hu Hp). unfold bind at 1, in_script at 1.
  destruct (Web.login net _ _ (script d)) as [[[]|] q]; cbn.
  - unfold bind, hide_modal, in_script, hideSection, showSection, modify. cbn.
    destruct (authModal d); cbn.
    + by exists true, false.
    + exists (authSection_hidden q), (welcomeSection_hidden q). by destruct q.
  - exists (authSection_hidden q), (welcomeSection_hidden q). by destruct q.
  - exists (authSection_hidden q), (welcomeSection_hidden q). by destruct q.
Qed.

Lemma register_click_script (d : document) :
  trim (usernameInput d) <> "" -> passwordInput d <> "" ->
  script (snd (registerModalButton_click net d)) =
    snd (Web.register net (trim (usernameInput d)) (passwordInput d) (script d)).
Proof.
  intros Hu Hp. unfold registerModalButton_click, bind at 1 2, gets.
  rewrite (modal_click_filled d Hu Hp). unfold bind at 1, in_script at 1.
  by destruct (Web.register net _ _ (script d)) as [[[]|] q].
Qed.

(** X14.  The two buttons of the modal check one thing: that the trimmed
    username and the password are not empty.  When one is, the listener
    only alerts, and no call is made; when neither is, exactly one call
    goes out, to /authenticate or /register, with the trimmed username and
    the password as typed, of any length. *)
Theorem modal_buttons_validate (d : document) :
  (trim (usernameInput d) = "" \/ passwordInput d = "" ->
   loginModalButton_click net d =
     (Return tt,
      set_script (set_alerts (alerts (script d) ++ ["Please enter username and password."])
                             (script d)) d) /\
   registerModalButton_click net d =
     (Return tt,
      set_script (set_alerts (alerts (script d) ++ ["Please enter username and password."])
                             (script d)) d)) /\
  (trim (usernameInput d) <> "" -> passwordInput d <> "" ->
   trace (script (snd (loginModalButton_click net d))) =
     trace (script d) ++ [authenticate_request (trim (usernameInput d)) (passwordInput d)] /\
   trace (script (snd (registerModalButton_click net d))) =
     trace (script d) ++ [register_request (trim (usernameInput d)) (passwordInput d)]).
Proof.
  split.
  - intros Hempty. apply modal_click_empty in Hempty.
    unfold loginModalButton_click, registerModalButton_click, bind, gets.
    by rewrite Hempty.
  - intros Hu Hp. split.
    + destruct (login_click_script d Hu Hp) as (ha & hw & ->). cbn.
      destruct (refresh_grant (net (trace (script d))
                  (authenticate_request (trim (usernameInput d)) (passwordInput d))))
        as [[access refresh]|] eqn:Hgrant.
      * by rewrite (web_login_granted _ _ _ _ _ Hgrant).
      * by destruct (web_login_refused _ _ _ Hgrant) as (text & log & ->).
    + rewrite (register_click_script d Hu Hp).
      by destruct (web_register_runs (script d) (trim (usernameInput d)) (passwordInput d))
        as (text & log & ->).
Qed.

(** X15.  A login the server grants outlives a reload: when the two inputs
    are filled in and the answer grants an access token whose string is not
    empty, the page, reloaded after the click, holds the strings of the two
    tokens, shows the welcome section instead of the other, and greets the
    trimmed username.  This holds whether or not the modal could be closed. *)
Theorem login_survives_reload (d : document) (access refresh : value) :
  trim (usernameInput d) <> "" -> passwordInput d <> "" ->
  refresh_grant (net (trace (script d))
                     (authenticate_request (trim (usernameInput d)) (passwordInput d))) =
    Some (access, refresh) ->
  ToString access <> "" ->
  accessToken (script (reload (snd (loginModalButton_click net d)))) = VStr (ToString access) /\
  refreshToken (script (reload (snd (loginModalButton_click net d)))) = VStr (ToString refresh) /\
  authSection_hidden (script (reload (snd (loginModalButton_click net d)))) = true /\
  welcomeSection_hidden (script (reload (snd (loginModalButton_click net d)))) = false /\
  welcomeMessage (reload (snd (loginModalButton_click net d))) =
    "Welcome, " +:+ trim (usernameInput d) +:+ "!".
Proof.
  intros Hu Hp Hgrant Haccess.
  destruct (login_click_script d Hu Hp) as (ha & hw & Hscript).
  unfold reload, opened. rewrite Hscript, (web_login_granted _ _ _ _ _ Hgrant). cbn.
  unfold DOMContentLoaded, bind, in_script, loadTokens, isAuthenticated, modify, gets,
    getItem_or_empty, username_or_User. cbn.
  rewrite lookup_insert_ne by done. rewrite lookup_insert_ne by done.
  rewrite lookup_insert_eq. cbn.
  apply String.eqb_neq in Haccess. rewrite Haccess. cbn.
  rewrite lookup_insert_ne by done. rewrite !lookup_insert_eq. cbn.
  apply String.eqb_neq in Hu. by rewrite Hu.
Qed.

(** X16.  A logout outlives a reload: the page, reloaded after a click on
    the logout button, holds two empty tokens, is not authenticated, and
    shows the authentication section instead of the welcome; the click
    makes no call. *)
Theorem logout_survives_reload (d : document) :
  accessToken (script (reload (snd (logoutButton_click d)))) = VStr "" /\
  refreshToken (script (reload (snd (logoutButton_click d)))) = VStr "" /\
  fst (isAuthenticated (script (reload (snd (logoutButton_click d))))) = Return false /\
  authSection_hidden (script (reload (snd (logoutButton_click d)))) = false /\
  welcomeSection_hidden (script (reload (snd (logoutButton_click d)))) = true /\
  trace (script (reload (snd (logoutButton_click d)))) = trace (script d).
Proof.
  unfold logoutButton_click, in_script.
  destruct (logout_logs_out (script d)) as (p' & -> & Hout & Htrace & _).
  destruct Hout as (_ & _ & Hsa & Hsr & _).
  unfold reload, opened. cbn.
  unfold DOMContentLoaded, bind, in_script, loadTokens, isAuthenticated, modify, gets,
    getItem_or_empty. cbn.
  by rewrite Hsa, Hsr.
Qed.

Lemma handle_mirrored (e : event) (d : document) :
  mirrored (script d) -> mirrored (script (snd (handle net e d))).
Proof.
  intros Hd. destruct e; unfold handle; [exact Hd| | | |exact Hd].
  - unfold logoutButton_click, in_script.
    destruct (logout_logs_out (script d)) as (p' & -> & Hout & _).
    by apply mirrored_logged_out.
  - destruct (String.eqb (trim (usernameInput d)) "") eqn:Hu.
    + apply String.eqb_eq in Hu.
      unfold loginModalButton_click, bind, gets.
      by rewrite (modal_click_empty d (or_introl Hu)).
    + apply String.eqb_neq in Hu.
      destruct (String.eqb (passwordInput d) "") eqn:Hp.
      * apply String.eqb_eq in Hp.
        unfold loginModalButton_click, bind, gets.
        by rewrite (modal_click_empty d (or_intror Hp)).
      * apply String.eqb_neq in Hp.
        destruct (login_click_script d Hu Hp) as (ha & hw & ->).
        by apply (login_mirrored (script d) (trim (usernameInput d)) (passwordInput d)) in Hd.
  - destruct (String.eqb (trim (usernameInput d)) "") eqn:Hu.
    + apply String.eqb_eq in Hu.
      unfold registerModalButton_click, bind, gets.
      by rewrite (modal_click_empty d (or_introl Hu)).
    + apply String.eqb_neq in Hu.
      destruct (String.eqb (passwordInput d) "") eqn:Hp.
      * apply String.eqb_eq in Hp.
        unfold registerModalButton_click, bind, gets.
        by rewrite (modal_click_empty d (or_intror Hp)).
      * apply String.eqb_neq in Hp.
        rewrite (register_click_script d Hu Hp). by apply register_mirrored.
Qed.

Lemma reload_mirrored (d : document) : mirrored (script (reload d)).
Proof.
  unfold reload, opened, DOMContentLoaded, bind, in_script, loadTokens, isAuthenticated,
    modify, gets, getItem_or_empty. cbn.
  by destruct (negb _).
Qed.

Lemma handle_all_mirrored (es : list event) (d : document) :
  mirrored (script d) -> mirrored (script (handle_all net es d)).
Proof.
  revert d. induction es as [|e es IH]; intros d Hd; [done|].
  cbn. by apply IH, handle_mirrored.
Qed.

Lemma reload_tokens (d : document) :
  accessToken (script (reload d)) = VStr (default "" (localStorage (script d) !! "accessToken")) /\
  refreshToken (script (reload d)) = VStr (default "" (localStorage (script d) !! "refreshToken")).
Proof.
  unfold reload, opened, DOMContentLoaded, bind, in_script, loadTokens, isAuthenticated,
    modify, gets, getItem_or_empty. cbn.
  by destruct (negb _).
Qed.

(** X17.  Over a whole visit the variables keep mirroring [localStorage]:
    after a load of the page and any sequence of clicks and keystrokes,
    each of the two tokens has the string of its entry; so a reload at that
    point brings back the strings of the tokens the page had. *)
Theorem visit_mirrors_localStorage (d : document) (es : list event) :
  mirrored (script (handle_all net es (reload d))) /\
  accessToken (script (reload (handle_all net es (reload d)))) =
    VStr (ToString (accessToken (script (handle_all net es (reload d))))) /\
  refreshToken (script (reload (handle_all net es (reload d)))) =
    VStr (ToString (refreshToken (script (handle_all net es (reload d))))).
Proof.
  pose proof (handle_all_mirrored es (reload d) (reload_mirrored d)) as Hm.
  split; [done|].
  destruct Hm as [Ha Hr].
  destruct (reload_tokens (handle_all net es (reload d))) as [-> ->].
  by rewrite Ha, Hr.
Qed.

End WebSessions.

(** * The sessions, on concrete runs *)

(** X5 at work: the popup starts logged out, then a login is granted. *)
Lemma logout_button_invariant_witness :
  rtc (Popup.step (P := Sample.platform) Sample.accepting)
      (snd (PopupStart.init (Sample.logged_out " alice" "correct horse")))
      (snd (Popup.perform (P := Sample.platform) Sample.accepting Popup.Logout
         (snd (Popup.perform (P := Sample.platform) Sample.accepting Popup.Login
            (snd (PopupStart.init (Sample.logged_out " alice" "correct horse"))))))) /\
  PopupStart.button_matches_storage
      (snd (Popup.perform (P := Sample.platform) Sample.accepting Popup.Logout
         (snd (Popup.perform (P := Sample.platform) Sample.accepting Popup.Login
            (snd (PopupStart.init (Sample.logged_out " alice" "correct horse"))))))).
Proof.
  assert (Hrun :
    rtc (Popup.step (P := Sample.platform) Sample.accepting)
      (snd (PopupStart.init (Sample.logged_out " alice" "correct horse")))
      (snd (Popup.perform (P := Sample.platform) Sample.accepting Popup.Logout
         (snd (Popup.perform (P := Sample.platform) Sample.accepting Popup.Login
            (snd (PopupStart.init (Sample.logged_out " alice" "correct horse")))))))).
  { eapply rtc_l; [apply Popup.step_perform|]. apply rtc_once, Popup.step_perform. }
  split; [exact Hrun|].
  exact (logout_button_invariant (P := Sample.platform) Sample.accepting _ _ Hrun).
Defined.

(** X6 at work: alice logs in and asks for the protected resource. *)
Lemma login_then_request_witness :
  Popup.lastError (Sample.logged_out " alice" "correct horse") = None /\
  trim (Popup.username_input (Sample.logged_out " alice" "correct horse")) <> "" /\
  Popup.password_input (Sample.logged_out " alice" "correct horse") <> "" /\
  Popup.trace (snd (Popup.accessProtected (P := Sample.platform) Sample.accepting
                      (snd (Popup.login (P := Sample.platform) Sample.accepting
                              (Sample.logged_out " alice" "correct horse"))))) =
    [Popup.authenticate_request "alice" "correct horse";
     Popup.protected_request (P := Sample.platform) (VStr Sample.access_new)].
Proof.
  split; [reflexivity | split; [done | split; [done |]]].
  apply (login_then_request (P := Sample.platform) Sample.accepting
           (Sample.logged_out " alice" "correct horse")
           (VStr Sample.access_new) (VStr Sample.refresh_new) 1700000900000%float);
    try reflexivity; done.
Defined.

(** X7 at work: the stored token has expired, the refresh is granted, and
    a second request follows. *)
Lemma refresh_then_second_request_witness :
  Popup.lastError (Sample.logged_in 1700000500000) = None /\
  Popup.chrome_local (Sample.logged_in 1700000500000) !! "auth_tokens" =
    Some (Popup.token_pair (VStr Sample.access_old) (VStr Sample.refresh_old)
            (VNum 1700000000000)) /\
  PrimFloat.ltb (ToNumber (P := Sample.platform) (VNum 1700000000000))
                (Popup.now (Sample.logged_in 1700000500000)) = true /\
  Popup.trace (snd (Popup.accessProtected (P := Sample.platform) Sample.accepting
                      (snd (Popup.accessProtected (P := Sample.platform) Sample.accepting
                              (Sample.logged_in 1700000500000))))) =
    [Popup.refresh_request (VStr Sample.refresh_old);
     Popup.protected_request (P := Sample.platform) (VStr Sample.access_new);
     Popup.protected_request (P := Sample.platform) (VStr Sample.access_new)].
Proof.
  split; [reflexivity | split; [reflexivity | split; [reflexivity |]]].
  apply (refresh_then_second_request (P := Sample.platform) Sample.accepting
           (Sample.logged_in 1700000500000)
           (VStr Sample.access_old) (VStr Sample.refresh_old) (VNum 1700000000000)
           (VStr Sample.access_new) (VStr Sample.refresh_new) 1700000900000%float);
    reflexivity.
Defined.

(** X8 at work: the server refuses the refresh, twice. *)
Lemma refused_refresh_is_asked_again_witness :
  Popup.lastError (Sample.logged_in 1700000500000) = None /\
  Popup.chrome_local (Sample.logged_in 1700000500000) !! "auth_tokens" =
    Some (Popup.token_pair (VStr Sample.access_old) (VStr Sample.refresh_old)
            (VNum 1700000000000)) /\
  PrimFloat.ltb (ToNumber (P := Sample.platform) (VNum 1700000000000))
                (Popup.now (Sample.logged_in 1700000500000)) = true /\
  Popup.chrome_local (snd (Popup.accessProtected (P := Sample.platform) Sample.refusing
                             (Sample.logged_in 1700000500000))) =
    Popup.chrome_local (Sample.logged_in 1700000500000) /\
  exists rest,
    Popup.trace (snd (Popup.accessProtected (P := Sample.platform) Sample.refusing
                        (snd (Popup.accessProtected (P := Sample.platform) Sample.refusing
                                (Sample.logged_in 1700000500000))))) =
      Popup.refresh_request (VStr Sample.refresh_old) ::
      Popup.refresh_request (VStr Sample.refresh_old) :: rest.
Proof.
  split; [reflexivity | split; [reflexivity | split; [reflexivity |]]].
  apply (refused_refresh_is_asked_again (P := Sample.platform) Sample.refusing
           (Sample.logged_in 1700000500000)
           (VStr Sample.access_old) (VStr Sample.refresh_old) (VNum 1700000000000));
    reflexivity.
Defined.

(** X9 at work: a pair is stored, and the storage cannot be read. *)
Lemma storage_error_is_reported_witness :
  Popup.lastError Sample.storage_failing = Some "The storage is not available." /\
  Popup.accessProtected (P := Sample.platform) Sample.accepting Sample.storage_failing =
    (Return tt,
     Popup.set_status_div
       (Some (VStr "The storage is not available.", Popup.StatusError))
       Sample.storage_failing) /\
  PopupStart.init Sample.storage_failing =
    (Return tt, Popup.set_logout_hidden true Sample.storage_failing).
Proof.
  split; [reflexivity|].
  apply (storage_error_is_reported (P := Sample.platform) Sample.accepting
           Sample.storage_failing "The storage is not available.").
  reflexivity.
Defined.

(** X10 at work: the user [~] logs in, and the API issues a token whose
    claims encode with a [-]. *)
Lemma base64url_segment_is_rejected_witness :
  split "." Sample.access_tilde !! 1%nat =
    Some "eyJzdWIiOiJ-IiwiaWF0IjoxNzAwMDAwMDAwLCJleHAiOjE3MDAwMDA5MDB9" /\
  In "-"%char
     (list_ascii_of_string "eyJzdWIiOiJ-IiwiaWF0IjoxNzAwMDAwMDAwLCJleHAiOjE3MDAwMDA5MDB9") /\
  Popup.getTokenExpiry (P := Sample.platform) (VStr Sample.access_tilde) =
    Throw (Builtin InvalidCharacterError) /\
  exists shown,
    Popup.login (P := Sample.platform) Sample.accepting_tilde
                (Sample.logged_out "~" "correct horse") =
      (Return tt,
       PopupStart.reported
         (Some (VStr ("Authentication failed: " +:+ shown), Popup.StatusError))
         [Popup.authenticate_request "~" "correct horse"]
         (Sample.logged_out "~" "correct horse")).
Proof.
  assert (Hin : In "-"%char
     (list_ascii_of_string "eyJzdWIiOiJ-IiwiaWF0IjoxNzAwMDAwMDAwLCJleHAiOjE3MDAwMDA5MDB9"))
    by (cbn; tauto).
  split; [reflexivity | split; [exact Hin |]].
  destruct (base64url_segment_is_rejected (P := Sample.platform) Sample.accepting_tilde
              Sample.access_tilde
              "eyJzdWIiOiJ-IiwiaWF0IjoxNzAwMDAwMDAwLCJleHAiOjE3MDAwMDA5MDB9"
              eq_refl (or_introl Hin)) as [Hthrow Hlogin].
  split; [exact Hthrow|].
  apply (Hlogin (Sample.logged_out "~" "correct horse")
           (mkResponse 200 (Some (VObj [("status", VStr "ok");
                                        ("access_token", VStr Sample.access_tilde);
                                        ("refresh_token", VStr Sample.refresh_new)])))
           [("status", VStr "ok"); ("access_token", VStr Sample.access_tilde);
            ("refresh_token", VStr Sample.refresh_new)]);
    try reflexivity; done.
Defined.

(** X11 at work: the server answers 200 with an empty object; [login]
    returns true and stores the string of [undefined] under both keys. *)
Lemma web_login_outcome_witness :
  Web.refresh_grant (Sample.empty_object (Web.trace Sample.visitor)
                       (WebUI.authenticate_request "alice" "correct horse")) =
    Some (VUndef, VUndef) /\
  Web.login (P := Sample.platform) Sample.empty_object "alice" "correct horse" Sample.visitor =
    (Return true,
     Web.mkPage VUndef VUndef
       (<["username" := "alice"]>
          (<["refreshToken" := "undefined"]> (<["accessToken" := "undefined"]> ∅)))
       [] [] false true [WebUI.authenticate_request "alice" "correct horse"]).
Proof.
  split; [reflexivity|].
  apply (proj1 (web_login_outcome (P := Sample.platform) Sample.empty_object
                  Sample.visitor "alice" "correct horse") VUndef VUndef).
  reflexivity.
Defined.

(** X14 at work: a username of spaces is stopped, a password of one
    character is sent. *)
Lemma modal_buttons_validate_witness :
  (trim (WebUI.usernameInput (Sample.modal_open "   " "correct horse")) = "" /\
   WebUI.loginModalButton_click (P := Sample.platform) Sample.accepting
       (Sample.modal_open "   " "correct horse") =
     (Return tt,
      WebUI.set_script
        (Web.set_alerts ["Please enter username and password."] Sample.visitor)
        (Sample.modal_open "   " "correct horse"))) /\
  (trim (WebUI.usernameInput (Sample.modal_open " bob " "x")) <> "" /\
   WebUI.passwordInput (Sample.modal_open " bob " "x") <> "" /\
   Web.trace (WebUI.script (snd (WebUI.registerModalButton_click (P := Sample.platform)
                                   Sample.accepting (Sample.modal_open " bob " "x")))) =
     [WebUI.register_request "bob" "x"]).
Proof.
  split.
  - split; [reflexivity|].
    apply (proj1 (modal_buttons_validate (P := Sample.platform) Sample.accepting
                    (Sample.modal_open "   " "correct horse"))).
    left. reflexivity.
  - split; [done | split; [done|]].
    apply (proj2 (modal_buttons_validate (P := Sample.platform) Sample.accepting
                    (Sample.modal_open " bob " "x"))); done.
Defined.

(** X15 at work: alice logs in through the modal and reloads the page. *)
Lemma login_survives_reload_witness :
  trim (WebUI.usernameInput (Sample.modal_open " alice " "correct horse")) <> "" /\
  WebUI.passwordInput (Sample.modal_open " alice " "correct horse") <> "" /\
  ToString (P := Sample.platform) (VStr Sample.access_new) <> "" /\
  Web.accessToken (WebUI.script (WebUI.reload (P := Sample.platform)
     (snd (WebUI.loginModalButton_click (P := Sample.platform) Sample.accepting
             (Sample.modal_open " alice " "correct horse"))))) = VStr Sample.access_new /\
  Web.refreshToken (WebUI.script (WebUI.reload (P := Sample.platform)
     (snd (WebUI.loginModalButton_click (P := Sample.platform) Sample.accepting
             (Sample.modal_open " alice " "correct horse"))))) = VStr Sample.refresh_new /\
  Web.authSection_hidden (WebUI.script (WebUI.reload (P := Sample.platform)
     (snd (WebUI.loginModalButton_click (P := Sample.platform) Sample.accepting
             (Sample.modal_open " alice " "correct horse"))))) = true /\
  Web.welcomeSection_hidden (WebUI.script (WebUI.reload (P := Sample.platform)
     (snd (WebUI.loginModalButton_click (P := Sample.platform) Sample.accepting
             (Sample.modal_open " alice " "correct horse"))))) = false /\
  WebUI.welcomeMessage (WebUI.reload (P := Sample.platform)
     (snd (WebUI.loginModalButton_click (P := Sample.platform) Sample.accepting
             (Sample.modal_open " alice " "correct horse")))) = "Welcome, alice!".
Proof.
  split; [done | split; [done | split; [done |]]].
  apply (login_survives_reload (P := Sample.platform) Sample.accepting
           (Sample.modal_open " alice " "correct horse")
           (VStr Sample.access_new) (VStr Sample.refresh_new));
    try reflexivity; done.
Defined.

(** X1 at work: bob registers with a password of eight characters. *)
Lemma register_outcome_witness :
  trim (Popup.username_input (Sample.logged_out " bob" "12345678")) <> "" /\
  8 <= String.length (Popup.password_input (Sample.logged_out " bob" "12345678")) /\
  PopupStart.accepted
    (Sample.accepting (Popup.trace (Sample.logged_out " bob" "12345678"))
       (Popup.register_request "bob" "12345678")) = true /\
  Popup.register (P := Sample.platform) Sample.accepting (Sample.logged_out " bob" "12345678") =
    (Return tt,
     Popup.mkWorld ∅ None (<["username" := "bob"]> ∅) " bob" ""
       (Some (VStr "Registration successful.", Popup.StatusSuccess)) true 1700000000000
       [Popup.register_request "bob" "12345678"]).
Proof.
  split; [done | split; [cbn; lia | split; [reflexivity |]]].
  apply (proj1 (register_outcome (P := Sample.platform) Sample.accepting
                  (Sample.logged_out " bob" "12345678"))); [done | cbn; lia | reflexivity].
Defined.

(** X13 at work: the page of a logged-in user mirrors its storage, and
    still does after a fetch that had to refresh the tokens. *)
Lemma tokens_mirror_localStorage_witness :
  WebUI.mirrored (P := Sample.platform) Sample.member_page /\
  WebUI.mirrored (P := Sample.platform)
    (snd (Web.authenticatedFetch (P := Sample.platform) Sample.expired_once
            (Web.BASE_URL +:+ "/protected") Sample.plain_get Sample.member_page)).
Proof.
  assert (Hm : WebUI.mirrored (P := Sample.platform) Sample.member_page)
    by (split; reflexivity).
  split; [exact Hm|].
  destruct (tokens_mirror_localStorage (P := Sample.platform) Sample.expired_once
              Sample.member_page) as (_ & _ & _ & _ & Hkept).
  destruct (Hkept Hm) as (_ & Hfetch & _).
  apply Hfetch.
Defined.
